(** * Personal finance tracker: ledger store and report engine

    A shallow embedding of [src/finance_tracker.py] (class [FinanceTracker])
    together with the meaning of the SQL statements it sends to SQLite.

    Modelling conventions.
    - The database file is a value of type [db] threaded through the methods.
      A table that does not exist yet and an empty table are identified:
      [CREATE TABLE IF NOT EXISTS] turns the former into the latter and
      leaves an existing table alone, and every other method runs only after
      [__init__] has called [setup_database].
    - Columns of type REAL hold rationals ([Q]); numeric equality is [Qeq].
    - The columns [id] and [created_at] are filled by the engine and read by
      no statement of the program; rows are kept in insertion order.
    - Columns that [add_transaction] binds to caller-supplied values and that
      the schema leaves nullable are options ([None] is SQL NULL, bound from
      Python's [None]).
    - A [date] is stored as ISO text [YYYY-MM-DD]; text comparison of such
      values is the lexicographic comparison of (year, month, day).
    - The wall clock ([datetime.now()]) is an explicit argument.
    - Exceptions are values of [exn]; a method that can raise returns a
      [result]. Console output is not modelled. *)

From Stdlib Require Import ZArith QArith Lia Lqa.
From stdpp Require Import base decidable option list sorting strings gmap.

Open Scope Z_scope.

(** ** Rationals: decidable comparisons *)

#[global] Instance Qle_dec (x y : Q) : Decision (x <= y)%Q.
Proof. unfold Qle. apply _. Defined.

#[global] Instance Qlt_dec (x y : Q) : Decision (x < y)%Q.
Proof. unfold Qlt. apply _. Defined.

#[global] Instance Qeq_dec' (x y : Q) : Decision (x == y)%Q.
Proof. unfold Qeq. apply _. Defined.

(** Syntactic equality of fractions; it is numeric equality on reduced
    fractions ([Qred]). *)
#[global] Instance Q_eq_dec : EqDecision Q.
Proof. solve_decision. Defined.

(** ** Exceptions *)

Inductive exn : Type :=
  | IntegrityError      (* sqlite3.IntegrityError: a constraint failed *)
  | OverflowError       (* a date or a number left the range of its type *)
  | ZeroDivisionError   (* Python division by zero *)
  | KeyError            (* subscript of a dict with a missing key *)
  | TypeError.          (* arithmetic or comparison on [None] *)

Inductive result (A : Type) : Type :=
  | Ok (a : A)
  | Raise (e : exn).
Arguments Ok {A} a.
Arguments Raise {A} e.

Definition bind {A B} (r : result A) (k : A -> result B) : result B :=
  match r with
  | Ok a => k a
  | Raise e => Raise e
  end.

Notation "x <~ r ;; k" := (bind r (fun x => k))
  (at level 100, r at next level, right associativity).

(** Python's [a / b] on numbers. *)
Definition py_div (a b : Q) : result Q :=
  if decide (b == 0)%Q then Raise ZeroDivisionError else Ok (a / b)%Q.

(** ** Calendar dates ([datetime.date]) *)

Module Date.

Record t : Type := mk { year : Z; month : Z; day : Z }.

#[global] Instance eq_dec : EqDecision t.
Proof. solve_decision. Defined.

Definition is_leap (y : Z) : bool :=
  (y mod 4 =? 0) && (negb (y mod 100 =? 0) || (y mod 400 =? 0)).

Definition days_in_month_tbl (m : Z) : Z :=
  match m with
  | 1 => 31 | 2 => 28 | 3 => 31 | 4 => 30 | 5 => 31 | 6 => 30
  | 7 => 31 | 8 => 31 | 9 => 30 | 10 => 31 | 11 => 30 | 12 => 31
  | _ => -1
  end.

Definition days_before_month_tbl (m : Z) : Z :=
  match m with
  | 1 => 0 | 2 => 31 | 3 => 59 | 4 => 90 | 5 => 120 | 6 => 151
  | 7 => 181 | 8 => 212 | 9 => 243 | 10 => 273 | 11 => 304 | 12 => 334
  | _ => -1
  end.

Definition days_in_month (y m : Z) : Z :=
  if (m =? 2) && is_leap y then 29 else days_in_month_tbl m.

Definition days_before_year (y : Z) : Z :=
  let y1 := y - 1 in y1 * 365 + y1 / 4 - y1 / 100 + y1 / 400.

Definition days_before_month (y m : Z) : Z :=
  days_before_month_tbl m + (if (2 <? m) && is_leap y then 1 else 0).

(** A value that [datetime.date] can hold: 0001-01-01 .. 9999-12-31. *)
Definition valid (d : t) : Prop :=
  1 <= year d <= 9999 /\ 1 <= month d <= 12 /\
  1 <= day d <= days_in_month (year d) (month d).

#[global] Instance valid_dec d : Decision (valid d).
Proof. unfold valid. apply _. Defined.

Definition toordinal (d : t) : Z :=
  days_before_year (year d) + days_before_month (year d) (month d) + day d.

Definition DI400Y : Z := 146097.
Definition DI100Y : Z := 36524.
Definition DI4Y : Z := 1461.
Definition MAXORDINAL : Z := 3652059.

Definition fromordinal (n0 : Z) : t :=
  let n := n0 - 1 in
  let n400 := n / DI400Y in let n := n mod DI400Y in
  let y := n400 * 400 + 1 in
  let n100 := n / DI100Y in let n := n mod DI100Y in
  let n4 := n / DI4Y in let n := n mod DI4Y in
  let n1 := n / 365 in let n := n mod 365 in
  let y := y + n100 * 100 + n4 * 4 + n1 in
  if (n1 =? 4) || (n100 =? 4) then mk (y - 1) 12 31
  else
    let leapyear := (n1 =? 3) && (negb (n4 =? 24) || (n100 =? 3)) in
    let m := Z.shiftr (n + 50) 5 in
    let preceding :=
      days_before_month_tbl m + (if (2 <? m) && leapyear then 1 else 0) in
    if n <? preceding then
      let m' := m - 1 in
      let preceding' :=
        preceding -
        (days_in_month_tbl m' + (if (m' =? 2) && leapyear then 1 else 0)) in
      mk y m' (n - preceding' + 1)
    else mk y m (n - preceding + 1).

(** [d - timedelta(days=k)]: raises [OverflowError] outside the range. *)
Definition sub_days (d : t) (k : Z) : result t :=
  let o := toordinal d - k in
  if decide (1 <= o <= MAXORDINAL) then Ok (fromordinal o)
  else Raise OverflowError.

(** [d.replace(day=1)]. *)
Definition replace_day1 (d : t) : t := mk (year d) (month d) 1.

(** Order of the ISO texts: lexicographic on (year, month, day). *)
Definition le (a b : t) : Prop :=
  year a < year b \/
  (year a = year b /\
   (month a < month b \/ (month a = month b /\ day a <= day b))).

#[global] Instance le_dec a b : Decision (le a b).
Proof. unfold le. apply _. Defined.

Definition lt (a b : t) : Prop := ~ le b a.

(** [strftime('%Y-%m', d)]. *)
Definition year_month (d : t) : Z * Z := (year d, month d).

End Date.

(** ** SQL values and three-valued logic *)

(** A truth value of SQL: [None] is NULL (unknown). *)
Definition sql_bool : Type := option bool.

(** [v = s] for a nullable text [v] and a text literal [s]. *)
Definition sql_eq (v : option string) (s : string) : sql_bool :=
  match v with
  | None => None
  | Some x => Some (bool_decide (x = s))
  end.

(** [v IN (s1, ..., sn)] for text literals. *)
Definition sql_in (v : option string) (l : list string) : sql_bool :=
  match v with
  | None => None
  | Some x => Some (bool_decide (x ∈ l))
  end.

(** A WHERE or ON clause keeps a row only when the condition is true. *)
Definition sql_true (b : sql_bool) : Prop := b = Some true.

#[global] Instance sql_true_dec b : Decision (sql_true b).
Proof. unfold sql_true. apply _. Defined.

(** A CHECK constraint fails only when the condition is false: NULL passes. *)
Definition check_passes (b : sql_bool) : bool :=
  match b with
  | Some false => false
  | _ => true
  end.

(** [SUM(x)]: NULL values are skipped; NULL when there is no other value. *)
Definition sql_sum (l : list (option Q)) : option Q :=
  match omap id l with
  | [] => None
  | xs => Some (foldr Qplus 0%Q xs)
  end.

(** [COALESCE(x, d)]. *)
Definition coalesce (x : option Q) (d : Q) : Q := default d x.

(** [x / y] in SQL: NULL when the divisor is zero. *)
Definition sql_div (x y : Q) : option Q :=
  if decide (y == 0)%Q then None else Some (x / y)%Q.

(** Sort order of nullable numbers: NULL is below every number. *)
Definition sql_le (a b : option Q) : Prop :=
  match a, b with
  | None, _ => True
  | Some _, None => False
  | Some x, Some y => (x <= y)%Q
  end.

#[global] Instance sql_le_dec a b : Decision (sql_le a b).
Proof. destruct a, b; simpl; apply _. Defined.

(** [GROUP BY key]: one group per distinct key, holding the rows with that
    key in table order. The order of the groups is left open by SQL; the
    model fixes one. *)
Definition group_by {A K : Type} `{EqDecision K} (key : A -> K) (l : list A)
  : list (K * list A) :=
  (fun k => (k, filter (fun a => key a = k) l)) <$> remove_dups (key <$> l).

(** ** Data model *)

Record Transaction : Type := {
  t_amount : Q;                    (* amount REAL NOT NULL *)
  t_category : string;             (* category TEXT NOT NULL *)
  t_description : option string;   (* description TEXT *)
  t_type : option string;          (* type TEXT CHECK(type IN (...)) *)
  t_date : Date.t                  (* date DATE NOT NULL *)
}.

Record Category : Type := {
  c_name : string;                 (* name TEXT UNIQUE NOT NULL *)
  c_type : string;                 (* type TEXT CHECK(type IN (...)) *)
  c_budget_limit : Q               (* budget_limit REAL DEFAULT 0 *)
}.

Record db : Type := {
  transactions : list Transaction;
  categories : list Category
}.

Definition empty_db : db := {| transactions := []; categories := [] |}.

(** The literals of both CHECK constraints. *)
Definition kinds : list string := ["income"; "expense"]%string.

(** ** Ledger store *)

Definition default_categories : list Category := [
  {| c_name := "Salary"; c_type := "income"; c_budget_limit := 0 |};
  {| c_name := "Freelance"; c_type := "income"; c_budget_limit := 0 |};
  {| c_name := "Food"; c_type := "expense"; c_budget_limit := 500 |};
  {| c_name := "Transport"; c_type := "expense"; c_budget_limit := 200 |};
  {| c_name := "Entertainment"; c_type := "expense"; c_budget_limit := 150 |};
  {| c_name := "Utilities"; c_type := "expense"; c_budget_limit := 300 |};
  {| c_name := "Shopping"; c_type := "expense"; c_budget_limit := 400 |};
  {| c_name := "Healthcare"; c_type := "expense"; c_budget_limit := 200 |};
  {| c_name := "Rent"; c_type := "expense"; c_budget_limit := 1200 |}
]%Q.

(** [INSERT OR IGNORE INTO categories]: a row that would break the UNIQUE
    or the CHECK constraint is skipped without an error. *)
Definition insert_or_ignore_category (cs : list Category) (c : Category)
  : list Category :=
  if decide (c_name c ∈ c_name <$> cs) then cs
  else if check_passes (sql_in (Some (c_type c)) kinds) then cs ++ [c]
  else cs.

Definition setup_database (d : db) : db :=
  {| transactions := transactions d;
     categories := foldl insert_or_ignore_category (categories d)
                     default_categories |}.

(** [INSERT INTO transactions]: the engine evaluates the CHECK constraint
    and fails the statement when it is violated. *)
Definition insert_transaction (d : db) (row : Transaction) : result db :=
  if check_passes (sql_in (t_type row) kinds)
  then Ok {| transactions := transactions d ++ [row];
             categories := categories d |}
  else Raise IntegrityError.

(** The method returns [True] whenever it returns; the new database is the
    only information of the result. *)
Definition add_transaction (d : db) (now : Date.t)
    (amount : Q) (category : string) (description : option string)
    (trans_type : option string) (date : option Date.t) : result db :=
  let date := match date with None => now | Some x => x end in
  insert_transaction d
    {| t_amount := amount; t_category := category;
       t_description := description; t_type := trans_type; t_date := date |}.

(** ** Report engine *)

(** [SUM(amount)] over rows of [transactions] ([amount] is NOT NULL). *)
Definition sum_amounts (l : list Transaction) : Q :=
  foldr Qplus 0%Q (t_amount <$> l).

(** The statement of [get_monthly_summary]:
    [SELECT type, SUM(amount), COUNT( * ) FROM transactions
     WHERE strftime('%Y-%m', date) = ? GROUP BY type]. *)
Definition query_monthly_totals (d : db) (ym : Z * Z)
  : list (option string * Q * nat) :=
  (fun g => (g.1, sum_amounts g.2, length g.2)) <$>
  group_by t_type
    (filter (fun t => Date.year_month (t_date t) = ym) (transactions d)).

(** [summary[k]] for a text key. The keys of the dict are Python values:
    texts, and [None] when a row has a NULL type. *)
Definition getitem (s : gmap (option string) Q) (k : string) : result Q :=
  match s !! Some k with
  | Some v => Ok v
  | None => Raise KeyError
  end.

Definition get_monthly_summary (d : db) (now : Date.t)
  : result (gmap (option string) Q) :=
  let results := query_monthly_totals d (Date.year_month now) in
  let summary : gmap (option string) Q :=
    <[Some "expense"%string := 0%Q]> (<[Some "income"%string := 0%Q]> ∅) in
  let summary := foldl (fun s r => <[r.1.1 := r.1.2]> s) summary results in
  income <~ getitem summary "income";;
  expense <~ getitem summary "expense";;
  let summary := <[Some "balance"%string := (income - expense)%Q]> summary in
  income <~ getitem summary "income";;
  rate <~ (if decide (0 < income)%Q
           then balance <~ getitem summary "balance";;
                income <~ getitem summary "income";;
                q <~ py_div balance income;;
                Ok (q * 100)%Q
           else Ok 0%Q);;
  Ok (<[Some "savings_rate"%string := rate]> summary).

(** The savings rate the method stores, from the two totals. *)
Definition savings_rate_of (income expense : Q) : Q :=
  if decide (0 < income)%Q then ((income - expense) / income * 100)%Q else 0%Q.

(** The WHERE clause of [get_category_spending]:
    [type = 'expense' AND date >= ?]. *)
Definition expense_since (start : Date.t) (t : Transaction) : Prop :=
  sql_true (sql_eq (t_type t) "expense") /\ Date.le start (t_date t).

#[global] Instance expense_since_dec start t : Decision (expense_since start t).
Proof. unfold expense_since. apply _. Defined.

(** [ORDER BY total DESC] on rows (category, total, count). *)
Definition total_desc (r1 r2 : string * Q * nat) : Prop :=
  (r2.1.2 <= r1.1.2)%Q.

#[global] Instance total_desc_dec r1 r2 : Decision (total_desc r1 r2).
Proof. unfold total_desc. apply _. Defined.

#[global] Instance total_desc_trans : Transitive total_desc.
Proof. intros x y z Hxy Hyz. unfold total_desc in *. by eapply Qle_trans. Qed.

#[global] Instance total_desc_total : Total total_desc.
Proof.
  intros x y. unfold total_desc.
  destruct (Qlt_le_dec x.1.2 y.1.2) as [Hlt|Hle]; [right|left]; [|done].
  by apply Qlt_le_weak.
Qed.

Definition query_category_spending (d : db) (start : Date.t)
  : list (string * Q * nat) :=
  merge_sort total_desc
    ((fun g => (g.1, sum_amounts g.2, length g.2)) <$>
     group_by t_category (filter (expense_since start) (transactions d))).

Definition get_category_spending (d : db) (now : Date.t) (days : Z)
  : result (list (string * Q * nat)) :=
  start_date <~ Date.sub_days now days;;
  Ok (query_category_spending d start_date).

(** The ON clause of [check_budgets]:
    [c.name = t.category AND t.type = 'expense' AND t.date >= ?]. *)
Definition budget_match (month_start : Date.t) (c : Category) (t : Transaction)
  : Prop :=
  c_name c = t_category t /\ expense_since month_start t.

#[global] Instance budget_match_dec ms c t : Decision (budget_match ms c t).
Proof. unfold budget_match. apply _. Defined.

(** [categories c LEFT JOIN transactions t ON ...]: a category without a
    matching transaction yields one row whose [t] side is NULL. *)
Definition join_rows (month_start : Date.t) (ts : list Transaction)
    (c : Category) : list (Category * option Transaction) :=
  match filter (budget_match month_start c) ts with
  | [] => [(c, None)]
  | m => (fun t => (c, Some t)) <$> m
  end.

Definition left_join (month_start : Date.t) (cs : list Category)
    (ts : list Transaction) : list (Category * option Transaction) :=
  c ← cs; join_rows month_start ts c.

(** The WHERE clause: [c.type = 'expense' AND c.budget_limit > 0]. *)
Definition budgeted (c : Category) : Prop :=
  c_type c = "expense"%string /\ (0 < c_budget_limit c)%Q.

#[global] Instance budgeted_dec c : Decision (budgeted c).
Proof. unfold budgeted. apply _. Defined.

(** [COALESCE(SUM(t.amount), 0)] over the joined rows of a group. *)
Definition spent_of (g : list (Category * option Transaction)) : Q :=
  coalesce
    (sql_sum ((fun r : Category * option Transaction => t_amount <$> r.2)
              <$> g)) 0.

(** [ORDER BY (COALESCE(SUM(t.amount), 0) / c.budget_limit) DESC] on rows
    (name, budget_limit, spent). *)
Definition usage_key (r : string * Q * Q) : option Q := sql_div r.2 r.1.2.

Definition usage_desc (r1 r2 : string * Q * Q) : Prop :=
  sql_le (usage_key r2) (usage_key r1).

#[global] Instance usage_desc_dec r1 r2 : Decision (usage_desc r1 r2).
Proof. unfold usage_desc. apply _. Defined.

#[global] Instance usage_desc_trans : Transitive usage_desc.
Proof.
  intros x y z. unfold usage_desc.
  destruct (usage_key x), (usage_key y), (usage_key z); simpl; try done.
  intros Hyx Hzy. by eapply Qle_trans.
Qed.

#[global] Instance usage_desc_total : Total usage_desc.
Proof.
  intros x y. unfold usage_desc.
  destruct (usage_key x) as [a|], (usage_key y) as [b|]; simpl; auto.
  destruct (Qlt_le_dec a b) as [Hlt|Hle]; [right|left]; [|done].
  by apply Qlt_le_weak.
Qed.

(** The statement of [check_budgets]. Numbers group by numeric equality, so
    the key holds the reduced fraction of [budget_limit]. *)
Definition query_budget_usage (d : db) (month_start : Date.t)
  : list (string * Q * Q) :=
  merge_sort usage_desc
    ((fun g => (g.1.1, g.1.2, spent_of g.2)) <$>
     group_by (fun r => (c_name r.1, Qred (c_budget_limit r.1)))
       (filter (fun r => budgeted r.1)
          (left_join month_start (categories d) (transactions d)))).

(** One entry of the list returned by [check_budgets] (a dict with these
    five keys). *)
Record budget_entry : Type := {
  category : string;
  budget : Q;
  spent : Q;
  percentage : Q;
  status : string
}.

(** The body of the loop of [check_budgets]. *)
Definition budget_row (r : string * Q * Q) : result budget_entry :=
  let '(category, budget, spent) := r in
  percentage <~ (if decide (0 < budget)%Q
                 then q <~ py_div spent budget;; Ok (q * 100)%Q
                 else Ok 0%Q);;
  let status :=
    if decide (100 < percentage)%Q then "OVER BUDGET"%string
    else if decide (80 < percentage)%Q then "NEAR LIMIT"%string
    else "OK"%string in
  Ok {| category := category; budget := budget; spent := spent;
        percentage := percentage; status := status |}.

(** The entry the loop body appends for a row whose budget is positive or
    whose guard fails, that is, whenever the division does not raise. *)
Definition budget_entry_of (r : string * Q * Q) : budget_entry :=
  let '(category, budget, spent) := r in
  let percentage :=
    if decide (0 < budget)%Q then (spent / budget * 100)%Q else 0%Q in
  {| category := category; budget := budget; spent := spent;
     percentage := percentage;
     status := if decide (100 < percentage)%Q then "OVER BUDGET"%string
               else if decide (80 < percentage)%Q then "NEAR LIMIT"%string
               else "OK"%string |}.

(** A [for] loop that appends one entry per row and stops at the first
    exception. *)
Fixpoint for_each {A B} (f : A -> result B) (l : list A) : result (list B) :=
  match l with
  | [] => Ok []
  | a :: l' => b <~ f a;; bs <~ for_each f l';; Ok (b :: bs)
  end.

Definition check_budgets (d : db) (now : Date.t) : result (list budget_entry) :=
  let month_start := Date.replace_day1 now in
  for_each budget_row (query_budget_usage d month_start).

(** ** Sample data *)

Definition ex_today : Date.t := Date.mk 2026 11 3.

Definition ex_food : Transaction :=
  {| t_amount := 600; t_category := "Food";
     t_description := Some "Groceries"%string;
     t_type := Some "expense"%string; t_date := ex_today |}.

Definition ex_salary : Transaction :=
  {| t_amount := 1000; t_category := "Salary";
     t_description := Some "Monthly salary"%string;
     t_type := Some "income"%string; t_date := ex_today |}.

Definition ex_pets : Transaction :=
  {| t_amount := 50; t_category := "Pets";
     t_description := Some "Vet"%string;
     t_type := Some "expense"%string; t_date := Date.mk 2026 9 24 |}.

Definition ex_db : db :=
  {| transactions := [ex_food; ex_salary; ex_pets];
     categories := default_categories |}.


(** ** States the program can reach *)

Inductive reachable : db -> Prop :=
  | reach_init : reachable (setup_database empty_db)
  | reach_setup d : reachable d -> reachable (setup_database d)
  | reach_add d now amount category description trans_type date d' :
      reachable d ->
      add_transaction d now amount category description trans_type date = Ok d' ->
      reachable d'.

(** ** Reference totals, in the words of the specification *)

(** The current-month total of one kind: the sum of the amounts of the
    transactions of that kind dated in the month of [now] (0 without any). *)
Definition spec_month_total (d : db) (now : Date.t) (kind : string) : Q :=
  sum_amounts
    (filter (fun t => t_type t = Some kind)
       (filter (fun t => Date.year_month (t_date t) = Date.year_month now)
          (transactions d))).

(** The transactions one row of the category report aggregates: the
    expenses of the category dated on or after [start]. *)
Definition spec_spending_rows (d : db) (start : Date.t) (cat : string)
  : list Transaction :=
  filter (fun t => t_category t = cat)
    (filter (expense_since start) (transactions d)).

(** The transactions the budget report charges to a category. *)
Definition spec_budget_rows (d : db) (month_start : Date.t) (c : Category)
  : list Transaction :=
  filter (budget_match month_start c) (transactions d).

(** ** Calendar arithmetic, restated for the proofs *)

(** The month and day that [fromordinal] derives from the offset [n] in the
    year and the leap flag. *)
Definition month_day (n : Z) (leapyear : bool) : Z * Z :=
  let m := Z.shiftr (n + 50) 5 in
  let preceding :=
    Date.days_before_month_tbl m + (if (2 <? m) && leapyear then 1 else 0) in
  if n <? preceding then
    let m' := m - 1 in
    let preceding' :=
      preceding -
      (Date.days_in_month_tbl m' + (if (m' =? 2) && leapyear then 1 else 0)) in
    (m', n - preceding' + 1)
  else (m, n - preceding + 1).

Definition month_day_ok (leapyear : bool) (n : Z) : bool :=
  let '(m, d) := month_day n leapyear in
  (1 <=? m) && (m <=? 12) && (1 <=? d) &&
  (d <=? (if (m =? 2) && leapyear then 29 else Date.days_in_month_tbl m)) &&
  (Date.days_before_month_tbl m + (if (2 <? m) && leapyear then 1 else 0) + d
   =? n + 1).

(** Month and day in range for the year. *)
Definition Date_wf (d : Date.t) : Prop :=
  1 <= Date.month d <= 12 /\
  1 <= Date.day d <= Date.days_in_month (Date.year d) (Date.month d).

(** ** Demo data ([generate_sample_data]) *)

(** The rows of the literal list: (amount, category, description, type). *)
Definition sample_transactions : list (Q * string * string * string) := [
  (3000, "Salary", "Monthly salary", "income");
  (500, "Freelance", "Web project", "income");
  (1200, "Rent", "Monthly rent", "expense");
  (150, "Utilities", "Electric bill", "expense");
  (80, "Food", "Groceries", "expense");
  (45, "Food", "Restaurant", "expense");
  (60, "Transport", "Gas", "expense");
  (35, "Transport", "Bus pass", "expense");
  (120, "Shopping", "Clothes", "expense");
  (75, "Entertainment", "Movies", "expense");
  (90, "Healthcare", "Doctor visit", "expense")
]%Q%string.

(** The loop of [generate_sample_data]. [rand i] is the value that the
    [i]-th call of [random.randint(0, 30)] returns; [now] is the calendar
    date during the call. Every [add_transaction] commits on its own, so
    an exception leaves the rows inserted before it: the loop returns the
    database it has reached together with the exception, if any. *)
Fixpoint generate_loop (d : db) (now : Date.t) (rand : nat -> Z) (i : nat)
    (l : list (Q * string * string * string)) : db * option exn :=
  match l with
  | [] => (d, None)
  | (amount, category, description, trans_type) :: l' =>
      let days_ago := rand i in
      match Date.sub_days now days_ago with
      | Raise e => (d, Some e)
      | Ok trans_date =>
          match add_transaction d now amount category (Some description)
                  (Some trans_type) (Some trans_date) with
          | Raise e => (d, Some e)
          | Ok d' => generate_loop d' now rand (S i) l'
          end
      end
  end.

Definition generate_sample_data (d : db) (now : Date.t) (rand : nat -> Z)
  : db * option exn :=
  generate_loop d now rand 0 sample_transactions.

(** ** Steps of the store *)


(** The row that the loop of [generate_sample_data] inserts for a tuple of
    the literal list and a date. *)
Definition sample_row (r : Q * string * string * string) (date : Date.t)
  : Transaction :=
  let '(amount, category, description, trans_type) := r in
  {| t_amount := amount; t_category := category;
     t_description := Some description; t_type := Some trans_type;
     t_date := date |}.

(** The rows inserted for the tuples [l], the first of which is the
    [i]-th of the loop, when the [j]-th row is dated [dates j]. *)
Fixpoint sample_rows (dates : nat -> Date.t) (i : nat)
    (l : list (Q * string * string * string)) : list Transaction :=
  match l with
  | [] => []
  | r :: l' => sample_row r (dates i) :: sample_rows dates (S i) l'
  end.

(** The date of the [i]-th sample row: [rand i] days before [now]. *)
Definition sample_date (now : Date.t) (rand : nat -> Z) (i : nat) : Date.t :=
  Date.fromordinal (Date.toordinal now - rand i).

(** ** More sample data *)

(** A table in which "Food" already has a budget of its own. *)
Definition ex_db_custom : db :=
  {| transactions := [];
     categories := [{| c_name := "Food"; c_type := "expense";
                       c_budget_limit := 800 |}] |}.

(** Random draws 0, 1, ..., 29, 30, 30, ... *)
Definition ex_rand (k : nat) : Z := Z.of_nat (Nat.min k 30).

(** * Properties *)

(** ** Dates: sample conversions *)

Example fromordinal_1 : Date.fromordinal 1 = Date.mk 1 1 1.
Proof. reflexivity. Qed.

Example fromordinal_max : Date.fromordinal Date.MAXORDINAL = Date.mk 9999 12 31.
Proof. reflexivity. Qed.

Example sub_days_40 :
  Date.sub_days (Date.mk 2026 11 3) 40 = Ok (Date.mk 2026 9 24).
Proof. reflexivity. Qed.

Example sub_days_leap :
  Date.sub_days (Date.mk 2024 3 1) 1 = Ok (Date.mk 2024 2 29).
Proof. reflexivity. Qed.


(** ** Grouping *)

Section group_by_facts.
Context {A K : Type} `{EqDecision K} (key : A -> K).

Lemma elem_of_group_by (l : list A) (k : K) (g : list A) :
  (k, g) ∈ group_by key l <->
  k ∈ key <$> l /\ g = filter (fun a => key a = k) l.
Proof.
  unfold group_by. rewrite list_elem_of_fmap. split.
  - intros (k' & Heq & Hin). inversion Heq; subst.
    rewrite elem_of_remove_dups in Hin. by split.
  - intros [Hin ->]. exists k. split; [done|].
    by rewrite elem_of_remove_dups.
Qed.

Lemma group_by_keys (l : list A) :
  (group_by key l).*1 = remove_dups (key <$> l).
Proof.
  unfold group_by. rewrite <- list_fmap_compose.
  induction (remove_dups (key <$> l)) as [|k ks IH]; [done|].
  simpl. by f_equal.
Qed.

Lemma NoDup_group_by_keys (l : list A) : NoDup (group_by key l).*1.
Proof. rewrite group_by_keys. apply NoDup_remove_dups. Qed.

Lemma group_by_nonempty (l : list A) (k : K) (g : list A) :
  (k, g) ∈ group_by key l -> g ≠ [].
Proof.
  rewrite elem_of_group_by. intros [Hin ->] Hnil.
  apply list_elem_of_fmap in Hin as (a & -> & Ha).
  eapply filter_nil_not_elem_of; [exact Hnil| |exact Ha]. done.
Qed.

Lemma group_by_no_key (l : list A) (k : K) :
  k ∉ (group_by key l).*1 -> filter (fun a => key a = k) l = [].
Proof.
  rewrite group_by_keys, elem_of_remove_dups. intros Hk.
  induction l as [|a l IH]; [done|].
  rewrite fmap_cons, not_elem_of_cons in Hk. destruct Hk as [Hne Hk].
  rewrite filter_cons_False by congruence. by apply IH.
Qed.
End group_by_facts.

(** ** The loop of [check_budgets] *)

Lemma for_each_Ok {A B} (f : A -> result B) (l : list A) (bs : list B) :
  for_each f l = Ok bs -> Forall2 (fun a b => f a = Ok b) l bs.
Proof.
  revert bs. induction l as [|a l IH]; simpl; intros bs H.
  - inversion H. constructor.
  - destruct (f a) as [b|e] eqn:E; simpl in H; [|done].
    destruct (for_each f l) as [bs'|e] eqn:E'; simpl in H; [|done].
    inversion H; subst. constructor; auto.
Qed.

Lemma for_each_total {A B} (f : A -> result B) (l : list A) :
  (forall a, a ∈ l -> exists b, f a = Ok b) ->
  exists bs, for_each f l = Ok bs.
Proof.
  induction l as [|a l IH]; simpl; intros H.
  - by exists [].
  - destruct (H a) as [b Hb]; [left|].
    destruct IH as [bs Hbs]; [intros; apply H; by right|].
    exists (b :: bs). by rewrite Hb, Hbs.
Qed.

(** ** Monthly summary *)

Lemma foldl_insert_other (rs : list (option string * Q * nat))
    (m : gmap (option string) Q) (k : option string) :
  k ∉ rs.*1.*1 ->
  foldl (fun s r => <[r.1.1 := r.1.2]> s) m rs !! k = m !! k.
Proof.
  revert m. induction rs as [|r rs IH]; intros m Hk; [done|].
  rewrite !fmap_cons, not_elem_of_cons in Hk. destruct Hk as [Hne Hk].
  simpl. rewrite IH by done. by rewrite lookup_insert_ne.
Qed.

Lemma foldl_insert_found (rs : list (option string * Q * nat))
    (m : gmap (option string) Q) (k : option string) (v : Q) (n : nat) :
  NoDup rs.*1.*1 -> (k, v, n) ∈ rs ->
  foldl (fun s r => <[r.1.1 := r.1.2]> s) m rs !! k = Some v.
Proof.
  revert m. induction rs as [|r rs IH]; intros m Hnd Hin.
  - by apply elem_of_nil in Hin.
  - rewrite !fmap_cons in Hnd. apply NoDup_cons in Hnd as [Hfresh Hnd].
    apply elem_of_cons in Hin as [<-|Hin]; simpl.
    + rewrite foldl_insert_other by done. apply lookup_insert_eq.
    + by apply IH.
Qed.

Lemma query_monthly_totals_keys (d : db) (ym : Z * Z) :
  (query_monthly_totals d ym).*1.*1 =
  (group_by t_type
     (filter (fun t => Date.year_month (t_date t) = ym) (transactions d))).*1.
Proof.
  unfold query_monthly_totals. rewrite <- !list_fmap_compose.
  apply list_fmap_ext. by intros i [k g] _.
Qed.

(** After the loop over the rows of the statement, a kind that the dict
    already held with value 0 holds the total of that kind. *)
Lemma summary_after_loop (d : db) (now : Date.t) (m : gmap (option string) Q)
    (kind : string) :
  m !! Some kind = Some 0%Q ->
  foldl (fun s r => <[r.1.1 := r.1.2]> s) m
    (query_monthly_totals d (Date.year_month now)) !! Some kind
  = Some (spec_month_total d now kind).
Proof.
  intros Hm. unfold spec_month_total.
  set (rows := filter _ (transactions d)).
  destruct (decide (Some kind ∈ (group_by t_type rows).*1)) as [Hin|Hout].
  - apply list_elem_of_fmap in Hin as ([k g] & Hk & Hin). simpl in Hk. subst k.
    pose proof Hin as Hg. apply elem_of_group_by in Hg as [_ ->].
    eapply foldl_insert_found with (n := length _).
    + rewrite query_monthly_totals_keys. apply NoDup_group_by_keys.
    + unfold query_monthly_totals. apply list_elem_of_fmap.
      eexists; split; [|exact Hin]. done.
  - rewrite foldl_insert_other
      by (rewrite query_monthly_totals_keys; exact Hout).
    rewrite (group_by_no_key t_type rows (Some kind) Hout). done.
Qed.


Lemma filter_none {A} (P : A -> Prop) `{forall x, Decision (P x)} (l : list A) :
  (forall x, x ∈ l -> ~ P x) -> filter P l = [].
Proof.
  induction l as [|a l IH]; intros Hl; [done|].
  rewrite filter_cons_False by (apply Hl; left).
  apply IH. intros x Hx. apply Hl. by right.
Qed.




(** ** Category spending *)

Lemma elem_of_query_category_spending (d : db) (start : Date.t)
    (cat : string) (total : Q) (n : nat) :
  (cat, total, n) ∈ query_category_spending d start <->
  spec_spending_rows d start cat ≠ [] /\
  total = sum_amounts (spec_spending_rows d start cat) /\
  n = length (spec_spending_rows d start cat).
Proof.
  unfold query_category_spending, spec_spending_rows.
  rewrite merge_sort_Permutation, list_elem_of_fmap. split.
  - intros ([k g] & Heq & Hin). simpl in Heq. inversion Heq; subst.
    pose proof (group_by_nonempty _ _ _ _ Hin) as Hne.
    apply elem_of_group_by in Hin as [_ ->]. done.
  - intros (Hne & -> & ->).
    eexists (cat, _). split; [reflexivity|].
    apply elem_of_group_by. split; [|reflexivity].
    destruct (filter (fun t => t_category t = cat) _) as [|t g] eqn:E; [done|].
    assert (Ht : t ∈ t :: g) by left. rewrite <- E in Ht.
    apply list_elem_of_filter in Ht as [<- Ht].
    by apply list_elem_of_fmap_2.
Qed.

Lemma elem_of_spec_spending_rows (d : db) (start : Date.t) (cat : string)
    (t : Transaction) :
  t ∈ spec_spending_rows d start cat <->
  t ∈ transactions d /\ t_category t = cat /\
  t_type t = Some "expense"%string /\ Date.le start (t_date t).
Proof.
  unfold spec_spending_rows, expense_since, sql_true, sql_eq.
  rewrite !list_elem_of_filter. destruct (t_type t) as [ty|].
  - rewrite (inj_iff Some), bool_decide_eq_true. split.
    + intros (? & [-> ?] & ?). done.
    + intros (? & ? & [= ->] & ?). done.
  - split; [intros (? & [? ?] & ?)|intros (? & ? & ? & ?)]; done.
Qed.

Lemma Date_le_refl (a : Date.t) : Date.le a a.
Proof. unfold Date.le. right. split; [done|]. right. split; [done|lia]. Qed.

Lemma get_category_spending_Ok (d : db) (now : Date.t) (days : Z)
    (rows : list (string * Q * nat)) :
  get_category_spending d now days = Ok rows <->
  exists start, Date.sub_days now days = Ok start /\
                rows = query_category_spending d start.
Proof.
  unfold get_category_spending.
  destruct (Date.sub_days now days) as [start|e]; simpl.
  - split; [intros [= <-]; eauto|intros (s & [= <-] & ->); done].
  - split; [done|intros (s & ? & ?); done].
Qed.

(** C4. The rows of [get_category_spending(days)] aggregate only expense
    transactions dated on or after today - days: every row is the sum and
    the count of such transactions of its category, so no income
    transaction and no transaction dated strictly before today - days is
    part of any row. The call returns whenever today - days is a date. *)
Theorem category_spending_only_recent_expenses
    (d : db) (now : Date.t) (days : Z) (start : Date.t)
    (Hstart : Date.sub_days now days = Ok start) :
  exists rows,
    get_category_spending d now days = Ok rows /\
    forall cat total n, (cat, total, n) ∈ rows ->
      total = sum_amounts (spec_spending_rows d start cat) /\
      n = length (spec_spending_rows d start cat) /\
      forall t, t ∈ spec_spending_rows d start cat ->
        t ∈ transactions d /\
        t_type t = Some "expense"%string /\
        t_type t ≠ Some "income"%string /\
        Date.le start (t_date t) /\
        ~ Date.lt (t_date t) start.
Proof.
  exists (query_category_spending d start). split.
  - apply get_category_spending_Ok. eauto.
  - intros cat total n Hin.
    apply elem_of_query_category_spending in Hin as (_ & -> & ->).
    split; [done|]. split; [done|]. intros t Ht.
    apply elem_of_spec_spending_rows in Ht as (Hin & _ & Hty & Hle).
    repeat split; try done.
    + rewrite Hty. done.
    + unfold Date.lt. tauto.
Qed.

(** C10. The lower bound of the date filter is inclusive: an expense
    transaction dated exactly today - days is part of the row of its
    category. *)
Theorem category_spending_bound_inclusive
    (d : db) (now : Date.t) (days : Z) (start : Date.t) (t : Transaction)
    (Hstart : Date.sub_days now days = Ok start)
    (Hin : t ∈ transactions d)
    (Hty : t_type t = Some "expense"%string)
    (Hdate : t_date t = start) :
  exists rows total n,
    get_category_spending d now days = Ok rows /\
    (t_category t, total, n) ∈ rows /\
    total = sum_amounts (spec_spending_rows d start (t_category t)) /\
    n = length (spec_spending_rows d start (t_category t)) /\
    t ∈ spec_spending_rows d start (t_category t).
Proof.
  assert (Ht : t ∈ spec_spending_rows d start (t_category t)).
  { apply elem_of_spec_spending_rows. repeat split; try done.
    rewrite Hdate. apply Date_le_refl. }
  exists (query_category_spending d start). eexists _, _.
  split; [apply get_category_spending_Ok; eauto|].
  split; [|done].
  apply elem_of_query_category_spending. split; [|done].
  intros Hnil. rewrite Hnil in Ht. by apply elem_of_nil in Ht.
Qed.

(** ** Budget status *)

Lemma budget_row_Ok (r : string * Q * Q) : budget_row r = Ok (budget_entry_of r).
Proof.
  destruct r as [[name b] s]. unfold budget_row, budget_entry_of.
  destruct (decide (0 < b)%Q) as [Hpos|Hnpos]; [|done].
  unfold py_div. destruct (decide (b == 0)%Q) as [Hz|_]; [|done].
  rewrite Hz in Hpos. by apply Qlt_irrefl in Hpos.
Qed.

Lemma for_each_fmap {A B} (f : A -> result B) (g : A -> B) (l : list A) :
  (forall a, f a = Ok (g a)) -> for_each f l = Ok (g <$> l).
Proof.
  intros Hfg. induction l as [|a l IH]; [done|].
  simpl. by rewrite Hfg, IH.
Qed.

(** The method always returns: one entry per row of the statement, in the
    order of the statement. *)
Lemma check_budgets_eq (d : db) (now : Date.t) :
  check_budgets d now =
  Ok (budget_entry_of <$> query_budget_usage d (Date.replace_day1 now)).
Proof. unfold check_budgets. apply for_each_fmap, budget_row_Ok. Qed.

Lemma join_rows_fst ms ts c r : r ∈ join_rows ms ts c -> r.1 = c.
Proof.
  unfold join_rows. destruct (filter _ ts) as [|t m].
  - by intros ->%list_elem_of_singleton.
  - by intros (t' & -> & _)%list_elem_of_fmap.
Qed.

Lemma join_rows_nonempty ms ts c : join_rows ms ts c ≠ [].
Proof. unfold join_rows. by destruct (filter _ ts). Qed.

Lemma spent_of_some (c : Category) (m : list Transaction) :
  m ≠ [] -> spent_of ((fun t => (c, Some t)) <$> m) = sum_amounts m.
Proof.
  intros Hm. unfold spent_of, sql_sum, sum_amounts.
  rewrite <- list_fmap_compose.
  assert (Ho : omap id ((fun t => t_amount <$> (c, Some t).2) <$> m)
               = t_amount <$> m).
  { clear Hm. induction m as [|t m IH]; [done|].
    rewrite !fmap_cons. simpl. f_equal. exact IH. }
  unfold compose. rewrite Ho. destruct m; done.
Qed.

Lemma spent_of_join_rows ms ts c :
  spent_of (join_rows ms ts c) = sum_amounts (filter (budget_match ms c) ts).
Proof.
  unfold join_rows. destruct (filter _ ts) as [|t m] eqn:E; [done|].
  by apply spent_of_some.
Qed.

Lemma elem_of_left_join ms cs ts r :
  r ∈ left_join ms cs ts <-> exists c, r ∈ join_rows ms ts c /\ c ∈ cs.
Proof. unfold left_join. apply list_elem_of_bind. Qed.

Lemma filter_all {A} (P : A -> Prop) `{forall x, Decision (P x)} (l : list A) :
  (forall x, x ∈ l -> P x) -> filter P l = l.
Proof.
  induction l as [|a l IH]; intros Hl; [done|].
  rewrite filter_cons_True by (apply Hl; left).
  f_equal. apply IH. intros x Hx. apply Hl. by right.
Qed.

(** Under the UNIQUE constraint on [name], the group of a category in the
    statement of [check_budgets] is the block of joined rows of that
    category. *)
Lemma group_of_category ms (cs : list Category) ts (c : Category) :
  NoDup (c_name <$> cs) -> c ∈ cs ->
  filter (fun r : Category * option Transaction =>
            (c_name r.1, Qred (c_budget_limit r.1))
            = (c_name c, Qred (c_budget_limit c)))
    (filter (fun r : Category * option Transaction => budgeted r.1)
       (left_join ms cs ts))
  = if decide (budgeted c) then join_rows ms ts c else [].
Proof.
  induction cs as [|c0 cs IH]; intros Hnd Hin.
  - by apply elem_of_nil in Hin.
  - rewrite fmap_cons in Hnd. apply NoDup_cons in Hnd as [Hfresh Hnd].
    unfold left_join. rewrite bind_cons, !filter_app.
    fold (left_join ms cs ts).
    apply elem_of_cons in Hin as [->|Hin].
    + replace (filter _ (filter _ (left_join ms cs ts))) with
        (@nil (Category * option Transaction)).
      2:{ symmetry. apply filter_none. intros r Hr [= Hname _].
          apply list_elem_of_filter in Hr as [_ Hr].
          apply elem_of_left_join in Hr as (c' & Hr & Hc').
          apply join_rows_fst in Hr. rewrite Hr in Hname.
          apply Hfresh. rewrite <- Hname. by apply list_elem_of_fmap_2. }
      rewrite app_nil_r. destruct (decide (budgeted c0)) as [Hb|Hb].
      * rewrite (filter_all (fun r => budgeted r.1));
          [|by intros r ->%join_rows_fst].
        apply filter_all. by intros r ->%join_rows_fst.
      * rewrite (filter_none (fun r => budgeted r.1));
          [done|by intros r ->%join_rows_fst].
    + rewrite IH by done.
      replace (filter _ (filter _ (join_rows ms ts c0))) with
        (@nil (Category * option Transaction)); [done|].
      symmetry. apply filter_none. intros r Hr [= Hname _].
      apply list_elem_of_filter in Hr as [_ Hr].
      apply join_rows_fst in Hr. rewrite Hr in Hname.
      apply Hfresh. rewrite Hname. by apply list_elem_of_fmap_2.
Qed.

(** Every row of the statement stems from a category that passes the WHERE
    clause. *)
Lemma query_budget_usage_sound (d : db) ms (name : string) (b s : Q) :
  (name, b, s) ∈ query_budget_usage d ms ->
  exists c, c ∈ categories d /\ budgeted c /\
            name = c_name c /\ b = Qred (c_budget_limit c).
Proof.
  unfold query_budget_usage.
  rewrite merge_sort_Permutation, list_elem_of_fmap.
  intros ([[k1 k2] g] & [= -> -> ->] & Hin).
  apply elem_of_group_by in Hin as [Hk _].
  apply list_elem_of_fmap in Hk as (r & [= -> ->] & Hr).
  apply list_elem_of_filter in Hr as [Hb Hr].
  apply elem_of_left_join in Hr as (c & Hr & Hc).
  apply join_rows_fst in Hr. rewrite Hr in *. by exists c.
Qed.

Lemma elem_of_query_budget_usage (d : db) ms (name : string) (b s : Q) :
  NoDup (c_name <$> categories d) ->
  (name, b, s) ∈ query_budget_usage d ms <->
  exists c, c ∈ categories d /\ budgeted c /\
            name = c_name c /\ b = Qred (c_budget_limit c) /\
            s = sum_amounts (spec_budget_rows d ms c).
Proof.
  intros Hnd. split.
  - intros Hin.
    destruct (query_budget_usage_sound _ _ _ _ _ Hin) as (c & Hc & Hb & -> & ->).
    exists c. do 4 (split; [done|]).
    unfold query_budget_usage in Hin.
    rewrite merge_sort_Permutation, list_elem_of_fmap in Hin.
    destruct Hin as ([[k1 k2] g] & [= <- <- ->] & Hin).
    apply elem_of_group_by in Hin as [_ ->].
    rewrite group_of_category by done.
    rewrite decide_True by done. apply spent_of_join_rows.
  - intros (c & Hc & Hb & -> & -> & ->).
    unfold query_budget_usage.
    rewrite merge_sort_Permutation, list_elem_of_fmap.
    eexists (_, _, _). split; [|apply elem_of_group_by; split; [|reflexivity]].
    + simpl. rewrite group_of_category by done.
      rewrite decide_True by done. by rewrite spent_of_join_rows.
    + destruct (join_rows ms (transactions d) c) as [|r rs] eqn:E;
        [by apply join_rows_nonempty in E|].
      assert (Hr : r ∈ join_rows ms (transactions d) c)
        by (rewrite E; left).
      pose proof (join_rows_fst _ _ _ _ Hr) as Hfst.
      apply list_elem_of_fmap. exists r. split; [by rewrite Hfst|].
      apply list_elem_of_filter. split; [by rewrite Hfst|].
      apply elem_of_left_join. eauto.
Qed.

Lemma elem_of_spec_budget_rows (d : db) ms (c : Category) (t : Transaction) :
  t ∈ spec_budget_rows d ms c <->
  t ∈ transactions d /\ t_category t = c_name c /\
  t_type t = Some "expense"%string /\ Date.le ms (t_date t).
Proof.
  unfold spec_budget_rows, budget_match, expense_since, sql_true, sql_eq.
  rewrite list_elem_of_filter. destruct (t_type t) as [ty|].
  - rewrite (inj_iff Some), bool_decide_eq_true. split.
    + intros ((? & -> & ?) & ?). done.
    + intros (? & ? & [= ->] & ?). done.
  - split; [intros ((? & ? & ?) & ?)|intros (? & ? & ? & ?)]; done.
Qed.

Lemma Qred_pos (q : Q) : (0 < q)%Q -> (0 < Qred q)%Q.
Proof. intros H. by rewrite Qred_correct. Qed.

Lemma query_budget_usage_pos (d : db) ms (r : string * Q * Q) :
  r ∈ query_budget_usage d ms -> (0 < r.1.2)%Q.
Proof.
  destruct r as [[name b] s]. intros Hin.
  apply query_budget_usage_sound in Hin as (c & _ & [_ Hpos] & _ & ->).
  by apply Qred_pos.
Qed.

(** The fields of an entry built from a row with a positive budget. *)
Lemma budget_entry_of_fields (r : string * Q * Q) :
  (0 < r.1.2)%Q ->
  let e := budget_entry_of r in
  category e = r.1.1 /\ budget e = r.1.2 /\ spent e = r.2 /\
  percentage e = (spent e / budget e * 100)%Q /\
  ((100 < percentage e)%Q -> status e = "OVER BUDGET"%string) /\
  ((80 < percentage e)%Q /\ (percentage e <= 100)%Q ->
     status e = "NEAR LIMIT"%string) /\
  ((percentage e <= 80)%Q -> status e = "OK"%string).
Proof.
  destruct r as [[name b] s]. simpl. intros Hpos.
  rewrite decide_True by done.
  do 4 (split; [done|]). split; [|split].
  - intros H. by rewrite decide_True.
  - intros [H1 H2]. rewrite decide_False by by apply Qle_not_lt.
    by rewrite decide_True.
  - intros H. rewrite decide_False.
    + rewrite decide_False; [done|]. by apply Qle_not_lt.
    + apply Qle_not_lt. eapply Qle_trans; [exact H|done].
Qed.

(** C5. Under the UNIQUE constraint on category names, [check_budgets]
    returns no entry for a category whose budget_limit is 0 or whose kind
    is income, and one entry for every expense category with a positive
    budget_limit, whose spent is the sum of the matching expense
    transactions since the first day of the month, 0 without any. *)
Theorem budget_status_rows (d : db) (now : Date.t)
    (Huniq : NoDup (c_name <$> categories d)) :
  exists rows,
    check_budgets d now = Ok rows /\
    (forall c, c ∈ categories d ->
       (c_budget_limit c == 0)%Q \/ c_type c = "income"%string ->
       forall r, r ∈ rows -> category r ≠ c_name c) /\
    (forall c, c ∈ categories d ->
       c_type c = "expense"%string -> (0 < c_budget_limit c)%Q ->
       exists r, r ∈ rows /\ category r = c_name c /\
         (budget r == c_budget_limit c)%Q /\
         spent r = sum_amounts (spec_budget_rows d (Date.replace_day1 now) c) /\
         ((forall t, t ∈ transactions d ->
             ~ (t_category t = c_name c /\
                t_type t = Some "expense"%string /\
                Date.le (Date.replace_day1 now) (t_date t))) ->
          spent r = 0%Q)).
Proof.
  set (ms := Date.replace_day1 now).
  exists (budget_entry_of <$> query_budget_usage d ms).
  split; [apply check_budgets_eq|]. split.
  - intros c Hc Hbad r Hr Hname.
    apply list_elem_of_fmap in Hr as (q & -> & Hq).
    destruct q as [[name b] s]. simpl in Hname.
    apply query_budget_usage_sound in Hq as (c' & Hc' & [Hty Hlim] & Hn & _).
    rewrite Hn in Hname.
    assert (c' = c) as ->.
    { apply list_elem_of_lookup in Hc as [i Hi].
      apply list_elem_of_lookup in Hc' as [j Hj].
      assert (i = j) as ->.
      { eapply NoDup_lookup; [exact Huniq| |];
          rewrite list_lookup_fmap; [by rewrite Hi|].
        rewrite Hj. simpl. by rewrite Hname. }
      congruence. }
    destruct Hbad as [Hz|Hinc].
    + rewrite Hz in Hlim. by apply Qlt_irrefl in Hlim.
    + by rewrite Hty in Hinc.
  - intros c Hc Hty Hlim.
    set (q := (c_name c, Qred (c_budget_limit c),
               sum_amounts (spec_budget_rows d ms c))).
    assert (Hq : q ∈ query_budget_usage d ms).
    { apply elem_of_query_budget_usage; [done|]. exists c. by repeat split. }
    destruct (budget_entry_of_fields q) as (Hcat & Hbud & Hsp & _).
    { by apply Qred_pos. }
    exists (budget_entry_of q). split; [by apply list_elem_of_fmap_2|].
    split; [done|]. split; [rewrite Hbud; apply Qred_correct|].
    split; [done|]. intros Hnone. rewrite Hsp. simpl.
    unfold spec_budget_rows. rewrite filter_none; [done|].
    intros t Ht Hm. apply (Hnone t Ht).
    assert (Ht' : t ∈ spec_budget_rows d ms c)
      by (by apply list_elem_of_filter).
    apply elem_of_spec_budget_rows in Ht'. tauto.
Qed.


Lemma setup_database_empty :
  setup_database empty_db =
  {| transactions := []; categories := default_categories |}.
Proof. reflexivity. Qed.

Lemma NoDup_default_names : NoDup (c_name <$> default_categories).
Proof. apply (bool_decide_unpack _). by vm_compute. Qed.


(** ** Order of the reports *)

Lemma StronglySorted_impl_elem {A} (R1 R2 : relation A) (l : list A) :
  (forall x y, x ∈ l -> y ∈ l -> R1 x y -> R2 x y) ->
  StronglySorted R1 l -> StronglySorted R2 l.
Proof.
  intros Himpl Hs. induction Hs as [|x l Hs IH Hall]; constructor.
  - apply IH. intros a b Ha Hb. apply Himpl; by right.
  - apply Forall_forall. intros y Hy. apply Himpl; [left|by right|].
    rewrite Forall_forall in Hall. by apply Hall.
Qed.

Lemma usage_key_pos (r : string * Q * Q) :
  (0 < r.1.2)%Q -> usage_key r = Some (r.2 / r.1.2)%Q.
Proof.
  intros Hpos. unfold usage_key, sql_div.
  destruct (decide (r.1.2 == 0)%Q) as [Hz|_]; [|done].
  rewrite Hz in Hpos. by apply Qlt_irrefl in Hpos.
Qed.


(** ** Transactions under a category that is not in the table *)



Lemma filter_middle_False {A} (P : A -> Prop) `{forall x, Decision (P x)}
    (l1 l2 : list A) (x : A) :
  ~ P x -> filter P (l1 ++ x :: l2) = filter P (l1 ++ l2).
Proof. intros Hx. by rewrite !filter_app, filter_cons_False. Qed.





(** ** Seeding the categories *)

Lemma insert_or_ignore_duplicate (cs : list Category) (c : Category) :
  c_name c ∈ c_name <$> cs -> insert_or_ignore_category cs c = cs.
Proof. intros Hin. unfold insert_or_ignore_category. by rewrite decide_True. Qed.

Lemma insert_or_ignore_keeps (cs : list Category) (c : Category) (x : string) :
  x ∈ c_name <$> cs -> x ∈ c_name <$> insert_or_ignore_category cs c.
Proof.
  intros Hx. unfold insert_or_ignore_category.
  destruct (decide _); [done|]. destruct (check_passes _); [|done].
  rewrite fmap_app, elem_of_app. by left.
Qed.

Lemma insert_or_ignore_adds (cs : list Category) (c : Category) :
  c_type c ∈ kinds -> c_name c ∈ c_name <$> insert_or_ignore_category cs c.
Proof.
  intros Hk. unfold insert_or_ignore_category.
  destruct (decide _) as [Hin|_]; [done|].
  simpl. rewrite bool_decide_eq_true_2 by done. simpl.
  rewrite fmap_app, elem_of_app. right. by left.
Qed.

Lemma foldl_insert_keeps (l cs : list Category) (x : string) :
  x ∈ c_name <$> cs -> x ∈ c_name <$> foldl insert_or_ignore_category cs l.
Proof.
  revert cs. induction l as [|c l IH]; intros cs Hx; [done|].
  simpl. by apply IH, insert_or_ignore_keeps.
Qed.

Lemma foldl_insert_adds (l cs : list Category) (c : Category) :
  c ∈ l -> c_type c ∈ kinds ->
  c_name c ∈ c_name <$> foldl insert_or_ignore_category cs l.
Proof.
  revert cs. induction l as [|c0 l IH]; intros cs Hin Hk.
  - by apply elem_of_nil in Hin.
  - simpl. apply elem_of_cons in Hin as [->|Hin].
    + by apply foldl_insert_keeps, insert_or_ignore_adds.
    + by apply IH.
Qed.

Lemma foldl_insert_ignored (l cs : list Category) :
  (forall c, c ∈ l -> c_name c ∈ c_name <$> cs) ->
  foldl insert_or_ignore_category cs l = cs.
Proof.
  induction l as [|c l IH]; intros Hl; [done|].
  simpl. rewrite insert_or_ignore_duplicate by (apply Hl; left).
  apply IH. intros c' Hc'. apply Hl. by right.
Qed.

Lemma default_categories_kinds (c : Category) :
  c ∈ default_categories -> c_type c ∈ kinds.
Proof.
  revert c. apply Forall_forall. apply (bool_decide_unpack _). by vm_compute.
Qed.

Lemma setup_database_twice (d : db) :
  setup_database (setup_database d) = setup_database d.
Proof.
  unfold setup_database. cbn [transactions categories]. f_equal.
  apply foldl_insert_ignored. intros c Hc.
  apply foldl_insert_adds; [done|by apply default_categories_kinds].
Qed.

Lemma reachable_categories (d : db) :
  reachable d -> categories d = default_categories.
Proof.
  induction 1 as [|d Hd IH|d now a c desc ty dt d' Hd IH Hadd].
  - reflexivity.
  - simpl. rewrite IH. reflexivity.
  - unfold add_transaction, insert_transaction in Hadd.
    destruct (check_passes _); [|done]. by inversion Hadd; subst.
Qed.

(** C6. [setup_database] is idempotent; run twice on an empty store it
    leaves exactly the 9 default categories, without a duplicate name; and
    an insert with a name that is already present leaves the table as it
    is, without an error. *)
Theorem setup_database_idempotent :
  (forall d, setup_database (setup_database d) = setup_database d) /\
  length (categories (setup_database (setup_database empty_db))) = 9%nat /\
  NoDup (c_name <$> categories (setup_database (setup_database empty_db))) /\
  categories (setup_database (setup_database empty_db)) = default_categories /\
  transactions (setup_database (setup_database empty_db)) = [] /\
  (forall cs c, c_name c ∈ c_name <$> cs ->
     insert_or_ignore_category cs c = cs).
Proof.
  split; [apply setup_database_twice|].
  rewrite setup_database_twice, setup_database_empty. simpl.
  split; [done|]. split; [apply NoDup_default_names|].
  split; [done|]. split; [done|]. apply insert_or_ignore_duplicate.
Qed.

(** ** The CHECK constraint on [type] *)

(** A text outside the two kinds fails the CHECK constraint: the call
    raises and no database is returned. *)
Lemma add_transaction_rejects_text (d : db) (now : Date.t) (amount : Q)
    (category : string) (description : option string) (kind : string)
    (date : option Date.t) :
  kind ∉ kinds ->
  add_transaction d now amount category description (Some kind) date
  = Raise IntegrityError.
Proof.
  intros Hk. unfold add_transaction, insert_transaction. simpl.
  by rewrite bool_decide_eq_false_2.
Qed.

(** C8 (the code departs from the claim). A call whose kind is [None], a
    value outside {income, expense}, is not rejected: the CHECK constraint
    evaluates to NULL, which passes, and the row is inserted. *)
Theorem add_transaction_accepts_null_kind (d : db) (now : Date.t) (amount : Q)
    (category : string) (description : option string) (date : Date.t) :
  (None ∉ Some <$> kinds) /\
  (add_transaction d now amount category description None (Some date) =
   Ok {| transactions :=
           transactions d ++
           [{| t_amount := amount; t_category := category;
               t_description := description; t_type := None;
               t_date := date |}];
         categories := categories d |}).
Proof. split; [|reflexivity]. by intros (? & ? & ?)%list_elem_of_fmap. Qed.

(** ** Worked instances *)




Lemma category_spending_only_recent_expenses_witness :
  Date.sub_days ex_today 30 = Ok (Date.mk 2026 10 4) /\
  exists rows,
    get_category_spending ex_db ex_today 30 = Ok rows /\
    forall cat total n, (cat, total, n) ∈ rows ->
      total = sum_amounts (spec_spending_rows ex_db (Date.mk 2026 10 4) cat) /\
      n = length (spec_spending_rows ex_db (Date.mk 2026 10 4) cat) /\
      forall t, t ∈ spec_spending_rows ex_db (Date.mk 2026 10 4) cat ->
        t ∈ transactions ex_db /\
        t_type t = Some "expense"%string /\
        t_type t ≠ Some "income"%string /\
        Date.le (Date.mk 2026 10 4) (t_date t) /\
        ~ Date.lt (t_date t) (Date.mk 2026 10 4).
Proof.
  split; [reflexivity|].
  exact (category_spending_only_recent_expenses ex_db ex_today 30
           (Date.mk 2026 10 4) eq_refl).
Defined.

Lemma category_spending_bound_inclusive_witness :
  Date.sub_days ex_today 40 = Ok (Date.mk 2026 9 24) /\
  ex_pets ∈ transactions ex_db /\
  t_type ex_pets = Some "expense"%string /\
  t_date ex_pets = Date.mk 2026 9 24 /\
  exists rows total n,
    get_category_spending ex_db ex_today 40 = Ok rows /\
    (t_category ex_pets, total, n) ∈ rows /\
    total =
      sum_amounts
        (spec_spending_rows ex_db (Date.mk 2026 9 24) (t_category ex_pets)) /\
    n = length
          (spec_spending_rows ex_db (Date.mk 2026 9 24) (t_category ex_pets)) /\
    ex_pets ∈ spec_spending_rows ex_db (Date.mk 2026 9 24) (t_category ex_pets).
Proof.
  assert (Hin : ex_pets ∈ transactions ex_db) by (do 2 right; left).
  split; [reflexivity|]. split; [exact Hin|].
  split; [reflexivity|]. split; [reflexivity|].
  exact (category_spending_bound_inclusive ex_db ex_today 40
           (Date.mk 2026 9 24) ex_pets eq_refl Hin eq_refl eq_refl).
Defined.

Lemma budget_status_rows_witness :
  NoDup (c_name <$> categories ex_db) /\
  exists rows,
    check_budgets ex_db ex_today = Ok rows /\
    (forall c, c ∈ categories ex_db ->
       (c_budget_limit c == 0)%Q \/ c_type c = "income"%string ->
       forall r, r ∈ rows -> category r ≠ c_name c) /\
    (forall c, c ∈ categories ex_db ->
       c_type c = "expense"%string -> (0 < c_budget_limit c)%Q ->
       exists r, r ∈ rows /\ category r = c_name c /\
         (budget r == c_budget_limit c)%Q /\
         spent r =
           sum_amounts (spec_budget_rows ex_db (Date.replace_day1 ex_today) c) /\
         ((forall t, t ∈ transactions ex_db ->
             ~ (t_category t = c_name c /\
                t_type t = Some "expense"%string /\
                Date.le (Date.replace_day1 ex_today) (t_date t))) ->
          spent r = 0%Q)).
Proof.
  assert (Hnd : NoDup (c_name <$> categories ex_db))
    by (apply (bool_decide_unpack _); vm_compute; reflexivity).
  split; [exact Hnd|].
  exact (budget_status_rows ex_db ex_today Hnd).
Defined.



(** * Further properties *)

(** ** Calendar arithmetic *)

Lemma days_before_year_succ y :
  Date.days_before_year (y + 1) =
  Date.days_before_year y + 365 + (if Date.is_leap y then 1 else 0).
Proof.
  unfold Date.days_before_year, Date.is_leap.
  replace (y + 1 - 1) with y by lia.
  destruct (y mod 4 =? 0) eqn:E4; destruct (y mod 100 =? 0) eqn:E100;
    destruct (y mod 400 =? 0) eqn:E400; simpl;
    rewrite ?Z.eqb_eq, ?Z.eqb_neq in *; Z.div_mod_to_equations; lia.
Qed.

Lemma days_before_year_mono y1 y2 :
  y1 < y2 ->
  Date.days_before_year y1 + 365 + (if Date.is_leap y1 then 1 else 0)
  <= Date.days_before_year y2.
Proof.
  intros H. rewrite <- days_before_year_succ.
  unfold Date.days_before_year. Z.div_mod_to_equations. lia.
Qed.

Lemma month_day_ok_common :
  forallb (fun k => month_day_ok false (Z.of_nat k)) (seq 0 365) = true.
Proof. vm_compute. reflexivity. Qed.

Lemma month_day_ok_leap :
  forallb (fun k => month_day_ok true (Z.of_nat k)) (seq 0 366) = true.
Proof. vm_compute. reflexivity. Qed.

Lemma month_day_ok_all (leapyear : bool) (n : Z) :
  0 <= n < 365 + (if leapyear then 1 else 0) -> month_day_ok leapyear n = true.
Proof.
  intros Hn.
  assert (Hk : Z.of_nat (Z.to_nat n) = n) by lia.
  destruct leapyear.
  - pose proof month_day_ok_leap as H. rewrite forallb_forall in H.
    rewrite <- Hk. apply H. apply in_seq. lia.
  - pose proof month_day_ok_common as H. rewrite forallb_forall in H.
    rewrite <- Hk. apply H. apply in_seq. lia.
Qed.

Lemma fromordinal_unfold (n0 : Z) :
  Date.fromordinal n0 =
  let n := n0 - 1 in
  let a := n / 146097 in let r1 := n mod 146097 in
  let b := r1 / 36524 in let r2 := r1 mod 36524 in
  let c := r2 / 1461 in let r3 := r2 mod 1461 in
  let e := r3 / 365 in let r4 := r3 mod 365 in
  let y := a * 400 + 1 + b * 100 + c * 4 + e in
  if (e =? 4) || (b =? 4) then Date.mk (y - 1) 12 31
  else
    let md := month_day r4 ((e =? 3) && (negb (c =? 24) || (b =? 3))) in
    Date.mk y md.1 md.2.
Proof.
  unfold Date.fromordinal, month_day, Date.DI400Y, Date.DI100Y, Date.DI4Y.
  cbv zeta.
  destruct (_ || _); [reflexivity|].
  destruct (_ <? _); reflexivity.
Qed.

Lemma days_before_year_cycles (a b c e : Z) :
  0 <= b <= 3 -> 0 <= c <= 24 -> 0 <= e <= 3 ->
  Date.days_before_year (a * 400 + 1 + b * 100 + c * 4 + e) =
  a * 146097 + b * 36524 + c * 1461 + e * 365.
Proof.
  intros Hb Hc He. unfold Date.days_before_year.
  Z.div_mod_to_equations. lia.
Qed.

Lemma is_leap_cycles (a b c e : Z) :
  0 <= b <= 3 -> 0 <= c <= 24 -> 0 <= e <= 3 ->
  Date.is_leap (a * 400 + 1 + b * 100 + c * 4 + e) =
  (e =? 3) && (negb (c =? 24) || (b =? 3)).
Proof.
  intros Hb Hc He. unfold Date.is_leap.
  destruct (e =? 3) eqn:E3; destruct (c =? 24) eqn:E24;
    destruct (b =? 3) eqn:Eb; simpl;
    rewrite ?Z.eqb_eq, ?Z.eqb_neq in *;
    repeat match goal with
    | |- context [?x mod ?k =? 0] =>
        let E := fresh "E" in
        destruct (x mod k =? 0) eqn:E;
        rewrite ?Z.eqb_eq, ?Z.eqb_neq in E
    end; simpl; try reflexivity; exfalso; Z.div_mod_to_equations; lia.
Qed.

Lemma fromordinal_spec (n : Z) :
  Date_wf (Date.fromordinal n) /\ Date.toordinal (Date.fromordinal n) = n.
Proof.
  rewrite fromordinal_unfold. cbv zeta.
  set (n' := n - 1).
  set (a := n' / 146097). set (r1 := n' mod 146097).
  set (b := r1 / 36524). set (r2 := r1 mod 36524).
  set (c := r2 / 1461). set (r3 := r2 mod 1461).
  set (e := r3 / 365). set (r4 := r3 mod 365).
  assert (Hn : n' = a * 146097 + r1 /\ 0 <= r1 < 146097)
    by (subst a r1; Z.div_mod_to_equations; lia).
  assert (H1 : r1 = b * 36524 + r2 /\ 0 <= r2 < 36524)
    by (subst b r2; Z.div_mod_to_equations; lia).
  assert (H2 : r2 = c * 1461 + r3 /\ 0 <= r3 < 1461)
    by (subst c r3; Z.div_mod_to_equations; lia).
  assert (H3 : r3 = e * 365 + r4 /\ 0 <= r4 < 365)
    by (subst e r4; Z.div_mod_to_equations; lia).
  assert (Hn' : n = n' + 1) by (subst n'; lia).
  clearbody a r1 b r2 c r3 e r4 n'.
  assert (Hb : 0 <= b <= 4) by lia.
  assert (Hc : 0 <= c <= 24) by lia.
  assert (He : 0 <= e <= 4) by lia.
  destruct (e =? 4) eqn:E4; [|destruct (b =? 4) eqn:B4];
    rewrite ?Z.eqb_eq, ?Z.eqb_neq in *; simpl orb; cbv iota.
  - (* last day of a leap year that ends a 4-year cycle *)
    assert (Hc' : c <= 23 \/ b = 3 \/ b = 4) by lia.
    assert (Hb3 : b <= 3) by lia.
    replace (a * 400 + 1 + b * 100 + c * 4 + e - 1)
      with (a * 400 + 1 + b * 100 + c * 4 + 3) by lia.
    unfold Date_wf, Date.toordinal, Date.days_in_month, Date.days_before_month.
    cbn [Date.year Date.month Date.day].
    rewrite days_before_year_cycles, is_leap_cycles by lia.
    assert (Hl : (3 =? 3) && (negb (c =? 24) || (b =? 3)) = true).
    { destruct (c =? 24) eqn:C24; destruct (b =? 3) eqn:B3; try reflexivity.
      rewrite ?Z.eqb_eq, ?Z.eqb_neq in *. lia. }
    rewrite Hl. simpl. lia.
  - (* last day of a 400-year cycle *)
    replace (a * 400 + 1 + b * 100 + c * 4 + e - 1)
      with (a * 400 + 1 + 3 * 100 + 24 * 4 + 3) by lia.
    unfold Date_wf, Date.toordinal, Date.days_in_month, Date.days_before_month.
    cbn [Date.year Date.month Date.day].
    rewrite days_before_year_cycles, is_leap_cycles by lia.
    simpl. lia.
  - set (leapyear := (e =? 3) && (negb (c =? 24) || (b =? 3))).
    pose proof (month_day_ok_all leapyear r4) as Hmd.
    unfold month_day_ok in Hmd.
    destruct (month_day r4 leapyear) as [m d]. cbn [fst snd].
    rewrite !andb_true_iff, !Z.leb_le, Z.eqb_eq in Hmd.
    destruct Hmd as ((((Hm1 & Hm2) & Hd1) & Hd2) & Hsum);
      [destruct leapyear; lia|].
    unfold Date_wf, Date.toordinal, Date.days_in_month, Date.days_before_month.
    cbn [Date.year Date.month Date.day].
    rewrite days_before_year_cycles, is_leap_cycles by lia.
    fold leapyear. split; [split; [lia|split; [lia|exact Hd2]]|lia].
Qed.

Ltac month_cases m :=
  assert (m = 1 \/ m = 2 \/ m = 3 \/ m = 4 \/ m = 5 \/ m = 6 \/ m = 7 \/
          m = 8 \/ m = 9 \/ m = 10 \/ m = 11 \/ m = 12) as Hcases by lia;
  repeat (destruct Hcases as [->|Hcases]); [..|subst m].

Lemma days_before_month_next (y m : Z) :
  1 <= m <= 12 ->
  Date.days_before_month y m + Date.days_in_month y m =
  if m =? 12 then 365 + (if Date.is_leap y then 1 else 0)
  else Date.days_before_month y (m + 1).
Proof.
  intros Hm. unfold Date.days_before_month, Date.days_in_month.
  month_cases m; destruct (Date.is_leap y); reflexivity.
Qed.

Lemma days_before_month_mono (y m1 m2 : Z) :
  1 <= m1 -> m1 < m2 -> m2 <= 12 ->
  Date.days_before_month y m1 + Date.days_in_month y m1
  <= Date.days_before_month y m2.
Proof.
  intros H1 H12 H2. unfold Date.days_before_month, Date.days_in_month.
  assert (Hm1 : 1 <= m1 <= 12) by lia.
  assert (Hm2 : 1 <= m2 <= 12) by lia.
  clear H1 H2. revert H12.
  month_cases m1; month_cases m2; destruct (Date.is_leap y); simpl; lia.
Qed.

Lemma day_of_year_bound (d : Date.t) :
  Date_wf d ->
  1 <= Date.days_before_month (Date.year d) (Date.month d) + Date.day d
    <= 365 + (if Date.is_leap (Date.year d) then 1 else 0).
Proof.
  destruct d as [y m dd]. unfold Date_wf. cbn [Date.year Date.month Date.day].
  intros [Hm Hd].
  pose proof (days_before_month_next y m Hm) as Hnext.
  unfold Date.days_before_month, Date.days_in_month in *.
  month_cases m; destruct (Date.is_leap y); simpl in *; lia.
Qed.

Lemma toordinal_lt (a b : Date.t) :
  Date_wf a -> Date_wf b -> Date.lt a b -> Date.toordinal a < Date.toordinal b.
Proof.
  intros Ha Hb Hlt.
  pose proof (day_of_year_bound a Ha) as Hda.
  pose proof (day_of_year_bound b Hb) as Hdb.
  unfold Date.lt, Date.le in Hlt. unfold Date.toordinal.
  destruct a as [ya ma da], b as [yb mb db].
  unfold Date_wf in Ha, Hb.
  cbn [Date.year Date.month Date.day] in *.
  destruct (Z.lt_trichotomy ya yb) as [Hy|[Hy|Hy]]; [| |lia].
  - pose proof (days_before_year_mono ya yb Hy). lia.
  - subst yb. destruct (Z.lt_trichotomy ma mb) as [Hm|[Hm|Hm]]; [| |lia].
    + pose proof (days_before_month_mono ya ma mb). lia.
    + subst mb. lia.
Qed.

Lemma Date_le_total (a b : Date.t) : Date.le a b \/ Date.lt b a.
Proof. unfold Date.lt. destruct (decide (Date.le a b)); auto. Qed.

Lemma fromordinal_mono (n m : Z) :
  n <= m -> Date.le (Date.fromordinal n) (Date.fromordinal m).
Proof.
  intros Hnm.
  destruct (Date_le_total (Date.fromordinal n) (Date.fromordinal m))
    as [Hle|Hlt]; [done|].
  destruct (fromordinal_spec n) as [Hwn Hn].
  destruct (fromordinal_spec m) as [Hwm Hm].
  pose proof (toordinal_lt _ _ Hwm Hwn Hlt). lia.
Qed.

Lemma Date_le_antisym (a b : Date.t) : Date.le a b -> Date.le b a -> a = b.
Proof.
  destruct a as [ya ma da], b as [yb mb db]. unfold Date.le.
  cbn [Date.year Date.month Date.day]. intros H1 H2.
  assert (ya = yb /\ ma = mb /\ da = db) as (-> & -> & ->) by lia. done.
Qed.

Lemma Date_le_trans (a b c : Date.t) : Date.le a b -> Date.le b c -> Date.le a c.
Proof. unfold Date.le. lia. Qed.

Lemma fromordinal_toordinal (d : Date.t) :
  Date_wf d -> Date.fromordinal (Date.toordinal d) = d.
Proof.
  intros Hd. destruct (fromordinal_spec (Date.toordinal d)) as [Hw Ho].
  apply Date_le_antisym.
  - destruct (Date_le_total (Date.fromordinal (Date.toordinal d)) d)
      as [H|H]; [done|].
    pose proof (toordinal_lt _ _ Hd Hw H). lia.
  - destruct (Date_le_total d (Date.fromordinal (Date.toordinal d)))
      as [H|H]; [done|].
    pose proof (toordinal_lt _ _ Hw Hd H). lia.
Qed.

Lemma valid_wf (d : Date.t) : Date.valid d -> Date_wf d.
Proof. unfold Date.valid, Date_wf. tauto. Qed.

Lemma toordinal_range (d : Date.t) :
  Date.valid d -> 1 <= Date.toordinal d <= Date.MAXORDINAL.
Proof.
  intros Hv. pose proof (day_of_year_bound d (valid_wf d Hv)) as Hd.
  destruct Hv as (Hy & _). unfold Date.toordinal, Date.MAXORDINAL.
  assert (Hlo : 0 <= Date.days_before_year (Date.year d))
    by (unfold Date.days_before_year; Z.div_mod_to_equations; lia).
  assert (Hhi : Date.days_before_year (Date.year d) + 365
                + (if Date.is_leap (Date.year d) then 1 else 0) <= 3652059).
  { rewrite <- days_before_year_succ. unfold Date.days_before_year.
    Z.div_mod_to_equations. lia. }
  lia.
Qed.

Lemma year_range_of_ordinal (d : Date.t) :
  Date_wf d -> 1 <= Date.toordinal d <= Date.MAXORDINAL ->
  1 <= Date.year d <= 9999.
Proof.
  intros Hw Ho. pose proof (day_of_year_bound d Hw) as Hb.
  destruct d as [y m dd].
  unfold Date.toordinal, Date.MAXORDINAL in Ho.
  cbn [Date.year Date.month Date.day] in *.
  pose proof (days_before_year_succ y) as Hs.
  destruct (decide (y <= 0)) as [Hy0|Hy0].
  { assert (Date.days_before_year (y + 1) <= 0)
      by (unfold Date.days_before_year; Z.div_mod_to_equations; lia).
    lia. }
  destruct (decide (10000 <= y)) as [Hy1|Hy1]; [|lia].
  assert (3652059 <= Date.days_before_year y)
    by (unfold Date.days_before_year; Z.div_mod_to_equations; lia).
  lia.
Qed.

Lemma fromordinal_valid (n : Z) :
  1 <= n <= Date.MAXORDINAL -> Date.valid (Date.fromordinal n).
Proof.
  intros Hn. destruct (fromordinal_spec n) as [Hw Ho].
  split; [|exact Hw].
  apply year_range_of_ordinal; [exact Hw|]. by rewrite Ho.
Qed.

(** ** The store: what the writes keep *)

Lemma insert_or_ignore_prefix (cs : list Category) (c : Category) :
  cs `prefix_of` insert_or_ignore_category cs c.
Proof.
  unfold insert_or_ignore_category.
  destruct (decide _); [done|]. destruct (check_passes _); [|done].
  by exists [c].
Qed.

Lemma foldl_insert_prefix (l cs : list Category) :
  cs `prefix_of` foldl insert_or_ignore_category cs l.
Proof.
  revert cs. induction l as [|c l IH]; intros cs; [done|].
  simpl. etrans; [apply insert_or_ignore_prefix|apply IH].
Qed.

Lemma insert_or_ignore_elem (cs : list Category) (c x : Category) :
  x ∈ insert_or_ignore_category cs c ->
  x ∈ cs \/ (x = c /\ c_name c ∉ c_name <$> cs).
Proof.
  unfold insert_or_ignore_category.
  destruct (decide _) as [|Hfresh]; [by left|].
  destruct (check_passes _); [|by left].
  rewrite elem_of_app, list_elem_of_singleton. intros [?| ->]; auto.
Qed.

Lemma foldl_insert_elem (l cs : list Category) (x : Category) :
  x ∈ foldl insert_or_ignore_category cs l ->
  x ∈ cs \/ (x ∈ l /\ c_name x ∉ c_name <$> cs).
Proof.
  revert cs. induction l as [|c l IH]; intros cs Hx; [by left|].
  simpl in Hx. apply IH in Hx as [Hx|[Hx Hfresh]].
  - apply insert_or_ignore_elem in Hx as [Hx|[-> Hfresh]]; [by left|].
    right. split; [left|done].
  - right. split; [by right|].
    intros Hin. apply Hfresh. by apply insert_or_ignore_keeps.
Qed.

(** X1. [setup_database] never touches a stored row: the transactions are
    as before, the categories that were in the table stay first and
    unchanged, and a default category is added only when no row had its
    name (so a row that already uses a default name keeps its own type and
    budget). *)
Theorem setup_database_keeps_rows (d : db) :
  transactions (setup_database d) = transactions d /\
  categories d `prefix_of` categories (setup_database d) /\
  forall c, c ∈ categories (setup_database d) ->
    c ∈ categories d \/
    (c ∈ default_categories /\ c_name c ∉ c_name <$> categories d).
Proof.
  split; [done|]. split; [apply foldl_insert_prefix|].
  intros c. apply foldl_insert_elem.
Qed.

Lemma insert_or_ignore_NoDup (cs : list Category) (c : Category) :
  NoDup (c_name <$> cs) -> NoDup (c_name <$> insert_or_ignore_category cs c).
Proof.
  intros Hnd. unfold insert_or_ignore_category.
  destruct (decide _) as [|Hfresh]; [done|].
  destruct (check_passes _); [|done].
  rewrite fmap_app. apply NoDup_app. split; [done|]. split.
  - intros x Hx ->%list_elem_of_singleton. done.
  - apply NoDup_singleton.
Qed.

Lemma foldl_insert_NoDup (l cs : list Category) :
  NoDup (c_name <$> cs) ->
  NoDup (c_name <$> foldl insert_or_ignore_category cs l).
Proof.
  revert cs. induction l as [|c l IH]; intros cs Hnd; [done|].
  simpl. by apply IH, insert_or_ignore_NoDup.
Qed.

(** X2. [setup_database] keeps the names of the categories pairwise
    distinct, and after it every one of the nine default names is in the
    table, whatever the table held before. *)
Theorem setup_database_names (d : db)
    (Huniq : NoDup (c_name <$> categories d)) :
  NoDup (c_name <$> categories (setup_database d)) /\
  forall c, c ∈ default_categories ->
    c_name c ∈ c_name <$> categories (setup_database d).
Proof.
  split; [by apply foldl_insert_NoDup|].
  intros c Hc. apply foldl_insert_adds; [done|].
  by apply default_categories_kinds.
Qed.


Lemma add_transaction_inv (d d' : db) now amount category description
    trans_type date :
  add_transaction d now amount category description trans_type date = Ok d' ->
  check_passes (sql_in trans_type kinds) = true /\
  d' = {| transactions :=
            transactions d ++
            [{| t_amount := amount; t_category := category;
                t_description := description; t_type := trans_type;
                t_date := default now date |}];
          categories := categories d |}.
Proof.
  unfold add_transaction, insert_transaction. simpl.
  destruct (check_passes _); [|done]. intros [= <-]. by destruct date.
Qed.

Lemma check_passes_kinds (ty : option string) :
  check_passes (sql_in ty kinds) = true ->
  ty = None \/ ty = Some "income"%string \/ ty = Some "expense"%string.
Proof.
  destruct ty as [k|]; [|by left]. simpl.
  destruct (decide (k ∈ kinds)) as [Hk|Hk].
  - intros _. right. unfold kinds in Hk. rewrite !elem_of_cons in Hk.
    destruct Hk as [->|[->|Hk]]; [by left|by right|].
    by apply elem_of_nil in Hk.
  - by rewrite bool_decide_eq_false_2.
Qed.

(** X4. In every state the program reaches, the categories table is
    exactly the nine default rows, and every stored transaction has kind
    NULL, 'income' or 'expense'. *)
Theorem reachable_invariant (d : db) (Hd : reachable d) :
  categories d = default_categories /\
  forall t, t ∈ transactions d ->
    t_type t = None \/ t_type t = Some "income"%string \/
    t_type t = Some "expense"%string.
Proof.
  induction Hd as [|d Hd [IHc IHt]|d now a c desc ty dt d' Hd [IHc IHt] Hadd].
  - split; [done|]. intros t Ht. by apply elem_of_nil in Ht.
  - split; [|exact IHt]. simpl. rewrite IHc. reflexivity.
  - apply add_transaction_inv in Hadd as [Hchk ->]. simpl.
    split; [done|]. intros t [Ht|Ht]%elem_of_app; [by apply IHt|].
    apply list_elem_of_singleton in Ht as ->. simpl.
    by apply check_passes_kinds.
Qed.


(** ** Percentages *)

Lemma pct_eq (s b : Q) : (0 < b)%Q -> (s / b * 100 == s * 100 / b)%Q.
Proof. intros Hb. field. intros Hz. rewrite Hz in Hb. by apply Qlt_irrefl in Hb. Qed.

Lemma pct_lt (s b k : Q) :
  (0 < b)%Q -> (k < s / b * 100)%Q <-> (k * b < s * 100)%Q.
Proof.
  intros Hb. rewrite pct_eq by done. split.
  - intros H. apply Qnot_le_lt. intros Hle. apply (Qlt_not_le _ _ H).
    by apply Qle_shift_div_r.
  - by apply Qlt_shift_div_l.
Qed.

Lemma pct_le (s b k : Q) :
  (0 < b)%Q -> (s / b * 100 <= k)%Q <-> (s * 100 <= k * b)%Q.
Proof.
  intros Hb. split.
  - intros H. apply Qnot_lt_le. intros Hlt. apply (Qle_not_lt _ _ H).
    by apply pct_lt.
  - intros H. apply Qnot_lt_le. intros Hlt. apply (Qle_not_lt _ _ H).
    by apply pct_lt.
Qed.



(** ** Monthly summary: keys, frame and updates *)

Lemma dom_foldl_insert (rs : list (option string * Q * nat))
    (m : gmap (option string) Q) :
  dom (foldl (fun s r => <[r.1.1 := r.1.2]> s) m rs)
  = dom m ∪ list_to_set rs.*1.*1.
Proof.
  revert m. induction rs as [|r rs IH]; intros m.
  - simpl. by rewrite (right_id_L ∅ (∪)).
  - rewrite !fmap_cons, list_to_set_cons. simpl.
    rewrite IH, dom_insert_L.
    apply set_eq. intros k. rewrite !elem_of_union. tauto.
Qed.

(** The dict that the method returns, in full. *)
Lemma get_monthly_summary_dict (d : db) (now : Date.t) :
  let income := spec_month_total d now "income" in
  let expense := spec_month_total d now "expense" in
  get_monthly_summary d now =
  Ok (<[Some "savings_rate"%string := savings_rate_of income expense]>
        (<[Some "balance"%string := (income - expense)%Q]>
           (foldl (fun s r => <[r.1.1 := r.1.2]> s)
              (<[Some "expense"%string := 0%Q]>
                 (<[Some "income"%string := 0%Q]> ∅))
              (query_monthly_totals d (Date.year_month now))))).
Proof.
  intros income expense. unfold get_monthly_summary.
  set (m0 := <[Some "expense"%string := 0%Q]> _).
  set (m := foldl _ m0 _).
  assert (Hi : m !! Some "income"%string = Some income)
    by (apply summary_after_loop; done).
  assert (He : m !! Some "expense"%string = Some expense)
    by (apply summary_after_loop; done).
  unfold getitem at 1. rewrite Hi. simpl.
  unfold getitem at 1. rewrite He. simpl.
  unfold getitem at 1. rewrite lookup_insert_ne by done. rewrite Hi. simpl.
  unfold savings_rate_of. destruct (decide (0 < income)%Q) as [Hpos|Hnpos].
  - unfold getitem. rewrite lookup_insert_eq. simpl.
    rewrite lookup_insert_ne by done. rewrite Hi. simpl.
    unfold py_div. destruct (decide (income == 0)%Q) as [Hz|_]; [|done].
    rewrite Hz in Hpos. by apply Qlt_irrefl in Hpos.
  - done.
Qed.


(** X6. The dict of [get_monthly_summary] always has the keys income,
    expense, balance and savings_rate (reading them never raises
    KeyError); its other keys are the kinds of the rows dated in the
    current month, so it has a [None] key exactly when such a row has a
    NULL kind. *)
Theorem monthly_summary_keys (d : db) (now : Date.t) :
  exists s : gmap (option string) Q,
    get_monthly_summary d now = Ok s /\
    dom s =
      ({[ Some "income"%string; Some "expense"%string;
          Some "balance"%string; Some "savings_rate"%string ]} : gset _)
      ∪ list_to_set
          (t_type <$>
           filter (fun t => Date.year_month (t_date t) = Date.year_month now)
             (transactions d)) /\
    (forall k, k ∈ ["income"; "expense"; "balance"; "savings_rate"]%string ->
       exists v, getitem s k = Ok v) /\
    (is_Some (s !! None) <->
     exists t, t ∈ transactions d /\
       Date.year_month (t_date t) = Date.year_month now /\ t_type t = None).
Proof.
  eexists. split; [apply get_monthly_summary_dict|].
  set (rows := filter _ (transactions d)).
  match goal with |- dom ?m = _ /\ _ => set (s := m) end.
  assert (Hdom : dom s =
    ({[ Some "income"%string; Some "expense"%string;
        Some "balance"%string; Some "savings_rate"%string ]} : gset _)
    ∪ list_to_set (t_type <$> rows)).
  { unfold s. rewrite !dom_insert_L, dom_foldl_insert, !dom_insert_L.
    rewrite query_monthly_totals_keys, group_by_keys. fold rows.
    rewrite dom_empty_L.
    apply set_eq. intros k. rewrite !elem_of_union, !elem_of_list_to_set.
    rewrite elem_of_remove_dups, !elem_of_singleton, elem_of_empty. tauto. }
  split; [exact Hdom|]. split.
  - intros k Hk. unfold getitem.
    assert (Hin : Some k ∈ dom s).
    { rewrite Hdom. apply elem_of_union_l.
      rewrite !elem_of_union, !elem_of_singleton.
      rewrite !elem_of_cons in Hk.
      destruct Hk as [->|[->|[->|[->|Hk]]]]; [tauto..|].
      by apply elem_of_nil in Hk. }
    apply elem_of_dom in Hin as [v Hv]. rewrite Hv. by exists v.
  - rewrite <- elem_of_dom, Hdom, elem_of_union, elem_of_list_to_set.
    rewrite list_elem_of_fmap, !elem_of_union, !elem_of_singleton. split.
    + intros [Hk|(t & Ht & Hin)]; [by destruct Hk as [[[?|?]|?]|?]|].
      apply list_elem_of_filter in Hin as [Hym Hin]. by exists t.
    + intros (t & Hin & Hym & Hty). right. exists t. split; [done|].
      by apply list_elem_of_filter.
Qed.

(** X7. A transaction that is not dated in the current month has no
    effect on [get_monthly_summary], wherever it sits in the table; nor
    has the categories table. *)
Theorem monthly_summary_frame (cs cs' : list Category)
    (l1 l2 : list Transaction) (t : Transaction) (now : Date.t)
    (Hout : Date.year_month (t_date t) ≠ Date.year_month now) :
  get_monthly_summary {| transactions := l1 ++ t :: l2; categories := cs |} now
  = get_monthly_summary {| transactions := l1 ++ l2; categories := cs' |} now.
Proof.
  unfold get_monthly_summary, query_monthly_totals. simpl.
  by rewrite filter_middle_False.
Qed.







(** ** Category spending: rows, totals and window *)








Section partition.
Context {A K : Type} `{EqDecision K} (key : A -> K).


End partition.

Lemma fmap_keys_id {K B C} (f : K -> B) (g : K -> C) (ks : list K) :
  ((fun k => (k, f k, g k)) <$> ks).*1.*1 = ks.
Proof.
  induction ks as [|k ks IH]; [done|]. rewrite !fmap_cons. simpl. by f_equal.
Qed.

Lemma query_category_spending_perm (d : db) (start : Date.t) :
  query_category_spending d start ≡ₚ
  (fun k => (k, sum_amounts (spec_spending_rows d start k),
             length (spec_spending_rows d start k)))
  <$> remove_dups (t_category <$> filter (expense_since start) (transactions d)).
Proof.
  unfold query_category_spending, group_by, spec_spending_rows.
  rewrite merge_sort_Permutation, <- list_fmap_compose. done.
Qed.

Lemma elem_of_spending_window (d : db) (start : Date.t) (t : Transaction) :
  t ∈ filter (expense_since start) (transactions d) <->
  t ∈ transactions d /\ t_type t = Some "expense"%string /\
  Date.le start (t_date t).
Proof.
  rewrite list_elem_of_filter. unfold expense_since, sql_true, sql_eq.
  destruct (t_type t) as [ty|].
  - rewrite (inj_iff Some), bool_decide_eq_true. split.
    + intros ([-> ?] & ?). done.
    + intros (? & [= ->] & ?). done.
  - split; [intros ([? ?] & ?)|intros (? & ? & ?)]; done.
Qed.

(** X10. [get_category_spending] returns exactly one row for each category
    that has an expense dated on or after today - days, and no other row;
    every row counts at least one transaction; the list is empty exactly
    when there is no such expense. *)
Theorem category_spending_rows (d : db) (now : Date.t) (days : Z)
    (start : Date.t) (Hstart : Date.sub_days now days = Ok start) :
  exists rows,
    get_category_spending d now days = Ok rows /\
    NoDup rows.*1.*1 /\
    (forall cat, cat ∈ rows.*1.*1 <->
       exists t, t ∈ transactions d /\ t_category t = cat /\
         t_type t = Some "expense"%string /\ Date.le start (t_date t)) /\
    (forall cat total n, (cat, total, n) ∈ rows -> (1 <= n)%nat) /\
    (rows = [] <->
     forall t, t ∈ transactions d ->
       ~ (t_type t = Some "expense"%string /\ Date.le start (t_date t))).
Proof.
  exists (query_category_spending d start).
  split; [apply get_category_spending_Ok; eauto|].
  pose proof (query_category_spending_perm d start) as Hperm.
  assert (Hkeys : (query_category_spending d start).*1.*1 ≡ₚ
    remove_dups (t_category <$> filter (expense_since start) (transactions d))).
  { rewrite Hperm. by rewrite fmap_keys_id. }
  assert (Hcat : forall cat, cat ∈ (query_category_spending d start).*1.*1 <->
    exists t, t ∈ transactions d /\ t_category t = cat /\
      t_type t = Some "expense"%string /\ Date.le start (t_date t)).
  { intros cat. rewrite Hkeys, elem_of_remove_dups, list_elem_of_fmap. split.
    - intros (t & -> & Ht). apply elem_of_spending_window in Ht.
      exists t. tauto.
    - intros (t & Hin & <- & Hty & Hle). exists t. split; [done|].
      by apply elem_of_spending_window. }
  split; [rewrite Hkeys; apply NoDup_remove_dups|].
  split; [exact Hcat|]. split.
  - intros cat total n Hin.
    apply elem_of_query_category_spending in Hin as (Hne & _ & ->).
    destruct (spec_spending_rows d start cat); [done|simpl; lia].
  - split.
    + intros Hnil t Hin [Hty Hle].
      assert (Hc : t_category t ∈ (query_category_spending d start).*1.*1)
        by (apply Hcat; exists t; done).
      rewrite Hnil in Hc. by apply elem_of_nil in Hc.
    + intros Hnone.
      destruct (query_category_spending d start) as [|[[cat total] n] rows] eqn:E;
        [done|].
      assert (Hc : cat ∈ ((cat, total, n) :: rows).*1.*1) by left.
      apply Hcat in Hc as (t & Hin & _ & Hty & Hle).
      exfalso. by apply (Hnone t Hin).
Qed.


Lemma sub_days_Ok (now : Date.t) (k : Z) (start : Date.t) :
  Date.sub_days now k = Ok start <->
  1 <= Date.toordinal now - k <= Date.MAXORDINAL /\
  start = Date.fromordinal (Date.toordinal now - k).
Proof.
  unfold Date.sub_days. destruct (decide _) as [Hr|Hr].
  - split; [intros [= <-]; done|intros [_ ->]; done].
  - split; [done|intros [? _]; done].
Qed.

(** The date that [today - timedelta(days)] computes. *)
Lemma sub_days_spec (now : Date.t) (k : Z) (start : Date.t) :
  Date.valid now -> Date.sub_days now k = Ok start ->
  Date.valid start /\ Date.toordinal start = Date.toordinal now - k /\
  (0 <= k -> Date.le start now) /\ (k = 0 -> start = now).
Proof.
  intros Hv [Hr ->]%sub_days_Ok.
  destruct (fromordinal_spec (Date.toordinal now - k)) as [_ Ho].
  split; [by apply fromordinal_valid|]. split; [done|].
  pose proof (fromordinal_toordinal now (valid_wf now Hv)) as Hnow.
  split.
  - intros Hk. rewrite <- Hnow at 2. apply fromordinal_mono. lia.
  - intros ->. by rewrite Z.sub_0_r.
Qed.

Lemma filter_length_mono {A} (P P' : A -> Prop)
    `{forall x, Decision (P x)} `{forall x, Decision (P' x)} (l : list A) :
  (forall x, x ∈ l -> P x -> P' x) ->
  (length (filter P l) <= length (filter P' l))%nat.
Proof.
  induction l as [|a l IH]; intros Himpl; [done|].
  assert (IH' : (length (filter P l) <= length (filter P' l))%nat)
    by (apply IH; intros x Hx; apply Himpl; by right).
  rewrite !filter_cons. destruct (decide (P a)) as [Ha|Ha].
  - rewrite decide_True by (apply Himpl; [left|done]). simpl. lia.
  - destruct (decide (P' a)); simpl; lia.
Qed.

Lemma sum_filter_mono (P P' : Transaction -> Prop)
    `{forall x, Decision (P x)} `{forall x, Decision (P' x)}
    (l : list Transaction) :
  (forall t, t ∈ l -> (0 <= t_amount t)%Q) ->
  (forall t, t ∈ l -> P t -> P' t) ->
  (sum_amounts (filter P l) <= sum_amounts (filter P' l))%Q.
Proof.
  unfold sum_amounts. induction l as [|a l IH]; intros Hpos Himpl.
  - apply Qle_refl.
  - assert (IH' : (foldr Qplus 0 (t_amount <$> filter P l)
                   <= foldr Qplus 0 (t_amount <$> filter P' l))%Q).
    { apply IH; intros x Hx; [apply Hpos|apply Himpl]; by right. }
    assert (Ha0 : (0 <= t_amount a)%Q) by (apply Hpos; left).
    rewrite !filter_cons. destruct (decide (P a)) as [Ha|Ha].
    + rewrite decide_True by (apply Himpl; [left|done]).
      rewrite !fmap_cons. cbn [foldr]. clear -IH'. lra.
    + destruct (decide (P' a)); [|done].
      rewrite fmap_cons. cbn [foldr]. clear -IH' Ha0. lra.
Qed.

(** X12. Widening the window never drops anything: for days1 <= days2,
    every category that has a row in [get_category_spending(days1)] has a
    row in [get_category_spending(days2)] that counts at least as many
    transactions, and, when no stored amount is negative, totals at least
    as much. *)
Theorem category_spending_window_grows (d : db) (now : Date.t)
    (days1 days2 : Z) (start1 start2 : Date.t)
    (Hdays : days1 <= days2)
    (Hs1 : Date.sub_days now days1 = Ok start1)
    (Hs2 : Date.sub_days now days2 = Ok start2) :
  exists rows1 rows2,
    get_category_spending d now days1 = Ok rows1 /\
    get_category_spending d now days2 = Ok rows2 /\
    forall cat total1 n1, (cat, total1, n1) ∈ rows1 ->
      exists total2 n2,
        (cat, total2, n2) ∈ rows2 /\ (n1 <= n2)%nat /\
        ((forall t, t ∈ transactions d -> (0 <= t_amount t)%Q) ->
         (total1 <= total2)%Q).
Proof.
  exists (query_category_spending d start1), (query_category_spending d start2).
  split; [apply get_category_spending_Ok; eauto|].
  split; [apply get_category_spending_Ok; eauto|].
  assert (Hle : Date.le start2 start1).
  { apply sub_days_Ok in Hs1 as [_ ->]. apply sub_days_Ok in Hs2 as [_ ->].
    apply fromordinal_mono. lia. }
  assert (Himpl : forall t cat,
    expense_since start1 t /\ t_category t = cat ->
    expense_since start2 t /\ t_category t = cat).
  { intros t cat [[Hty Hd] Hc]. split; [|done]. split; [done|].
    by eapply Date_le_trans. }
  assert (Hrows : forall start cat,
    spec_spending_rows d start cat
    = filter (fun t => expense_since start t /\ t_category t = cat)
        (transactions d)).
  { intros start cat. unfold spec_spending_rows.
    rewrite list_filter_filter. apply list_filter_iff. tauto. }
  intros cat total1 n1 Hin.
  apply elem_of_query_category_spending in Hin as (Hne & -> & ->).
  eexists _, _. split; [apply elem_of_query_category_spending|].
  - split; [|split; reflexivity].
    rewrite Hrows in *. intros Hnil.
    pose proof (filter_length_mono _ _ (transactions d)
                  (fun t _ => Himpl t cat)) as Hlen.
    rewrite Hnil in Hlen. destruct (filter _ (transactions d)); [done|].
    simpl in Hlen. lia.
  - rewrite !Hrows. split.
    + apply filter_length_mono. intros t _. apply Himpl.
    + intros Hpos. apply sum_filter_mono; [done|]. intros t _. apply Himpl.
Qed.

(** X13. For a valid today and 0 <= days < ordinal of today,
    [get_category_spending(days)] returns; its window starts at a valid
    date exactly [days] days before today, which is not after today (and
    is today for days = 0), so every expense dated today or later is
    counted in the row of its category. *)
Theorem category_spending_window_start (d : db) (now : Date.t) (days : Z)
    (Hvalid : Date.valid now)
    (Hdays : 0 <= days < Date.toordinal now) :
  exists start rows,
    Date.sub_days now days = Ok start /\
    get_category_spending d now days = Ok rows /\
    Date.valid start /\
    Date.toordinal start = Date.toordinal now - days /\
    Date.le start now /\
    (days = 0 -> start = now) /\
    forall t, t ∈ transactions d -> t_type t = Some "expense"%string ->
      Date.le now (t_date t) ->
      t ∈ spec_spending_rows d start (t_category t) /\
      exists total n, (t_category t, total, n) ∈ rows.
Proof.
  pose proof (toordinal_range now Hvalid) as Hr.
  set (start := Date.fromordinal (Date.toordinal now - days)).
  assert (Hstart : Date.sub_days now days = Ok start).
  { apply sub_days_Ok. split; [lia|done]. }
  destruct (sub_days_spec now days start Hvalid Hstart)
    as (Hv & Ho & Hle & Hz).
  exists start, (query_category_spending d start).
  split; [done|]. split; [apply get_category_spending_Ok; eauto|].
  split; [done|]. split; [done|]. split; [apply Hle; lia|].
  split; [done|]. intros t Hin Hty Hd.
  assert (Ht : t ∈ spec_spending_rows d start (t_category t)).
  { apply elem_of_spec_spending_rows. repeat split; try done.
    eapply Date_le_trans; [apply Hle; lia|done]. }
  split; [done|]. eexists _, _.
  apply elem_of_query_category_spending. split; [|split; reflexivity].
  intros Hnil. rewrite Hnil in Ht. by apply elem_of_nil in Ht.
Qed.

(** X14. A transaction that is not an expense, or that is dated before
    today - days, has no effect on [get_category_spending(days)], wherever
    it sits in the table; nor has the categories table. *)
Theorem category_spending_frame (cs cs' : list Category)
    (l1 l2 : list Transaction) (t : Transaction) (now : Date.t) (days : Z)
    (Hout : forall start, Date.sub_days now days = Ok start ->
              t_type t ≠ Some "expense"%string \/ Date.lt (t_date t) start) :
  get_category_spending
    {| transactions := l1 ++ t :: l2; categories := cs |} now days
  = get_category_spending
      {| transactions := l1 ++ l2; categories := cs' |} now days.
Proof.
  unfold get_category_spending.
  destruct (Date.sub_days now days) as [start|e] eqn:E; [|done]. simpl.
  f_equal. unfold query_category_spending. simpl.
  rewrite filter_middle_False; [done|].
  intros [Hty Hle]. destruct (Hout start eq_refl) as [Hne|Hlt].
  - apply Hne. unfold sql_true, sql_eq in Hty.
    destruct (t_type t) as [ty|]; [|done].
    apply (inj Some) in Hty. apply bool_decide_eq_true in Hty. by subst.
  - by apply Hlt.
Qed.

(** ** Budget status: thresholds, order, coverage and updates *)

Lemma budget_entry_of_status (r : string * Q * Q) :
  (0 < r.1.2)%Q ->
  let e := budget_entry_of r in
  (status e = "OVER BUDGET"%string <-> (budget e < spent e)%Q) /\
  (status e = "NEAR LIMIT"%string <->
   (80 * budget e < 100 * spent e)%Q /\ (spent e <= budget e)%Q) /\
  (status e = "OK"%string <-> (100 * spent e <= 80 * budget e)%Q).
Proof.
  destruct r as [[name b] s]. simpl. intros Hpos.
  destruct (decide (0 < b)%Q) as [_|Hn]; [|done].
  destruct (decide (100 < s / b * 100)%Q) as [Hover|Hover].
  - apply pct_lt in Hover; [|done].
    repeat split; intros; destruct_and?; try done; lra.
  - apply Qnot_lt_le in Hover. apply pct_le in Hover; [|done].
    destruct (decide (80 < s / b * 100)%Q) as [Hnear|Hnear].
    + apply pct_lt in Hnear; [|done].
      repeat split; intros; destruct_and?; try done; lra.
    + apply Qnot_lt_le in Hnear. apply pct_le in Hnear; [|done].
      repeat split; intros; destruct_and?; try done; lra.
Qed.


Lemma budget_entry_of_percentage (r : string * Q * Q) :
  (0 < r.1.2)%Q -> percentage (budget_entry_of r) = (r.2 / r.1.2 * 100)%Q.
Proof.
  destruct r as [[name b] s]. simpl. intros Hpos. by rewrite decide_True.
Qed.

Lemma budget_entry_of_status_pct (r : string * Q * Q) :
  let e := budget_entry_of r in
  (status e = "OVER BUDGET"%string <-> (100 < percentage e)%Q) /\
  (status e = "OK"%string <-> (percentage e <= 80)%Q).
Proof.
  destruct r as [[name b] s]. simpl.
  set (p := if decide (0 < b)%Q then (s / b * 100)%Q else 0%Q).
  destruct (decide (100 < p)%Q) as [H1|H1].
  - repeat split; intros; try done; lra.
  - destruct (decide (80 < p)%Q) as [H2|H2];
      repeat split; intros; try done; lra.
Qed.

(** X16. Along the list of [check_budgets] the percentage never goes up;
    hence every "OVER BUDGET" entry comes before every other entry and
    every "OK" entry after every other entry. *)
Theorem budget_status_order (d : db) (now : Date.t) :
  exists entries,
    check_budgets d now = Ok entries /\
    StronglySorted
      (fun e1 e2 =>
         (percentage e2 <= percentage e1)%Q /\
         (status e2 = "OVER BUDGET"%string -> status e1 = "OVER BUDGET"%string) /\
         (status e1 = "OK"%string -> status e2 = "OK"%string))
      entries.
Proof.
  eexists. split; [apply check_budgets_eq|].
  apply StronglySorted_fmap with
    (R1 := fun r1 r2 : string * Q * Q =>
             ((0 < r1.1.2)%Q /\ (0 < r2.1.2)%Q) /\ usage_desc r1 r2).
  - intros r1 r2 [[H1 H2] Hdesc].
    unfold usage_desc in Hdesc. rewrite !usage_key_pos in Hdesc by done.
    simpl in Hdesc.
    assert (Hp : (percentage (budget_entry_of r2)
                  <= percentage (budget_entry_of r1))%Q).
    { rewrite !budget_entry_of_percentage by done. clear -Hdesc. lra. }
    split; [done|].
    destruct (budget_entry_of_status_pct r1) as [Ho1 Hk1].
    destruct (budget_entry_of_status_pct r2) as [Ho2 Hk2].
    split.
    + intros Ho. apply Ho1. apply Ho2 in Ho. clear -Ho Hp. lra.
    + intros Hk. apply Hk2. apply Hk1 in Hk. clear -Hk Hp. lra.
  - apply StronglySorted_impl_elem with (R1 := usage_desc).
    + intros x y Hx Hy Hxy.
      split; [|done]. split; by eapply query_budget_usage_pos.
    + apply (StronglySorted_merge_sort usage_desc).
Qed.

Lemma query_budget_usage_keys (d : db) (ms : Date.t) :
  NoDup (c_name <$> categories d) ->
  (query_budget_usage d ms).*1 ≡ₚ
  (fun c => (c_name c, Qred (c_budget_limit c)))
  <$> filter budgeted (categories d).
Proof.
  intros Hnd. apply NoDup_Permutation.
  - unfold query_budget_usage. rewrite merge_sort_Permutation.
    rewrite <- list_fmap_compose.
    erewrite list_fmap_ext; [apply NoDup_group_by_keys|].
    by intros i [[k1 k2] g] _.
  - apply NoDup_fmap_2_strong.
    + intros c1 c2 [_ H1]%list_elem_of_filter [_ H2]%list_elem_of_filter
             [= Hname _].
      apply list_elem_of_lookup in H1 as [i Hi].
      apply list_elem_of_lookup in H2 as [j Hj].
      assert (i = j) as ->.
      { eapply NoDup_lookup; [exact Hnd| |];
          rewrite list_lookup_fmap; [by rewrite Hi|].
        rewrite Hj. simpl. by rewrite Hname. }
      congruence.
    + apply NoDup_filter. by eapply NoDup_fmap_1.
  - intros [name b]. rewrite !list_elem_of_fmap. split.
    + intros ([[name' b'] s] & [= -> ->] & Hin).
      apply query_budget_usage_sound in Hin as (c & Hc & Hb & -> & ->).
      exists c. split; [done|]. by apply list_elem_of_filter.
    + intros (c & [= -> ->] & [Hb Hc]%list_elem_of_filter).
      eexists (_, _, _). split; [reflexivity|].
      apply elem_of_query_budget_usage; [done|]. exists c. done.
Qed.

Lemma budget_entry_of_key (r : string * Q * Q) :
  (category (budget_entry_of r), budget (budget_entry_of r)) = r.1.
Proof. by destruct r as [[name b] s]. Qed.

(** X17. In every state the program reaches, [check_budgets] returns
    exactly seven entries: one for each default expense category, with
    its default budget. *)
Theorem budget_status_seven (d : db) (now : Date.t) (Hd : reachable d) :
  exists entries,
    check_budgets d now = Ok entries /\
    length entries = 7%nat /\
    (fun e => (category e, budget e)) <$> entries ≡ₚ
    [("Food", 500); ("Transport", 200); ("Entertainment", 150);
     ("Utilities", 300); ("Shopping", 400); ("Healthcare", 200);
     ("Rent", 1200)]%string%Q.
Proof.
  eexists. split; [apply check_budgets_eq|].
  assert (Hcs : categories d = default_categories)
    by (by apply reachable_categories).
  assert (Hperm : (fun e => (category e, budget e))
                  <$> (budget_entry_of
                       <$> query_budget_usage d (Date.replace_day1 now))
                  ≡ₚ [("Food", 500); ("Transport", 200); ("Entertainment", 150);
                      ("Utilities", 300); ("Shopping", 400); ("Healthcare", 200);
                      ("Rent", 1200)]%string%Q).
  { rewrite <- list_fmap_compose.
    erewrite list_fmap_ext; [|intros i r _; apply budget_entry_of_key].
    rewrite query_budget_usage_keys
      by (rewrite Hcs; apply NoDup_default_names).
    rewrite Hcs. by vm_compute. }
  split; [|exact Hperm].
  apply Permutation_length in Hperm. by rewrite length_fmap in Hperm.
Qed.

Lemma left_join_skip_row ms (cs : list Category) (l1 l2 : list Transaction)
    (t : Transaction) :
  ~ expense_since ms t ->
  left_join ms cs (l1 ++ t :: l2) = left_join ms cs (l1 ++ l2).
Proof.
  intros Ht. unfold left_join. induction cs as [|c cs IH]; [done|].
  rewrite !bind_cons, IH. f_equal.
  unfold join_rows. rewrite filter_middle_False; [done|].
  intros [_ Hes]. by apply Ht.
Qed.

(** X18. A transaction that is not an expense (income or NULL kind), or
    that is dated before the first day of the current month, has no effect
    on [check_budgets], wherever it sits in the table. *)
Theorem budget_status_frame (cs : list Category) (l1 l2 : list Transaction)
    (t : Transaction) (now : Date.t)
    (Hout : t_type t ≠ Some "expense"%string \/
            Date.lt (t_date t) (Date.replace_day1 now)) :
  check_budgets {| transactions := l1 ++ t :: l2; categories := cs |} now
  = check_budgets {| transactions := l1 ++ l2; categories := cs |} now.
Proof.
  unfold check_budgets, query_budget_usage. simpl.
  rewrite left_join_skip_row; [done|].
  intros [Hty Hle]. destruct Hout as [Hne|Hlt]; [|by apply Hlt].
  apply Hne. unfold sql_true, sql_eq in Hty.
  destruct (t_type t) as [ty|]; [|done].
  apply (inj Some) in Hty. apply bool_decide_eq_true in Hty. by subst.
Qed.



(** ** Demo data *)

Lemma sub_days_sample (now : Date.t) (rand : nat -> Z) (i : nat) :
  1 <= Date.toordinal now - rand i <= Date.MAXORDINAL ->
  Date.sub_days now (rand i) = Ok (sample_date now rand i).
Proof. intros Hr. unfold Date.sub_days, sample_date. by rewrite decide_True. Qed.

Lemma add_sample_row (d : db) (now : Date.t)
    (r : Q * string * string * string) (date : Date.t) :
  r.2 ∈ kinds ->
  add_transaction d now r.1.1.1 r.1.1.2 (Some r.1.2) (Some r.2) (Some date)
  = Ok {| transactions := transactions d ++ [sample_row r date];
          categories := categories d |}.
Proof.
  intros Hk. destruct r as [[[a c] ds] ty].
  unfold add_transaction, insert_transaction. cbn [t_type sql_in].
  cbn [fst snd] in *. by rewrite bool_decide_eq_true_2.
Qed.

Lemma generate_loop_ok (d : db) (now : Date.t) (rand : nat -> Z) (i : nat)
    (l : list (Q * string * string * string)) :
  (forall k, 1 <= Date.toordinal now - rand k <= Date.MAXORDINAL) ->
  (forall r, r ∈ l -> r.2 ∈ kinds) ->
  generate_loop d now rand i l =
  ({| transactions := transactions d ++ sample_rows (sample_date now rand) i l;
      categories := categories d |}, None).
Proof.
  intros Hrange. revert d i. induction l as [|r l IH]; intros d i Hkinds.
  - cbn [generate_loop sample_rows]. rewrite app_nil_r. by destruct d.
  - assert (Hk : r.2 ∈ kinds) by (apply Hkinds; left).
    pose proof (add_sample_row d now r (sample_date now rand i) Hk) as Hadd.
    destruct r as [[[a c] ds] ty]. cbn [generate_loop fst snd] in *.
    rewrite (sub_days_sample now rand i (Hrange i)), Hadd.
    rewrite IH by (intros r Hr; apply Hkinds; by right).
    cbn [transactions categories sample_rows].
    by rewrite <- app_assoc.
Qed.

Lemma generate_loop_any (d : db) (now : Date.t) (rand : nat -> Z) (i : nat)
    (l : list (Q * string * string * string)) :
  (forall r, r ∈ l -> r.2 ∈ kinds) ->
  let out := generate_loop d now rand i l in
  categories out.1 = categories d /\
  transactions d `prefix_of` transactions out.1 /\
  (out.2 = None \/ out.2 = Some OverflowError) /\
  (out.2 = None ->
   length (transactions out.1) = (length (transactions d) + length l)%nat).
Proof.
  revert d i. induction l as [|[[[a c] ds] ty] l IH]; intros d i Hkinds.
  - simpl. split; [done|]. split; [done|]. split; [by left|]. intros _. lia.
  - cbn [generate_loop]. unfold Date.sub_days.
    destruct (decide _) as [Hr|Hr].
    + unfold add_transaction, insert_transaction. cbn [t_type sql_in].
      rewrite bool_decide_eq_true_2 by (apply (Hkinds (a, c, ds, ty)); left).
      cbn [check_passes].
      match goal with |- context [generate_loop ?d1 _ _ _ _] =>
        destruct (IH d1 (S i)) as (Hc & Hp & He & Hl);
          [intros r Hr'; apply Hkinds; by right|]
      end.
      cbn [transactions categories] in *.
      split; [done|]. split.
      * etrans; [|exact Hp]. by eexists.
      * split; [done|]. intros Hn. rewrite (Hl Hn), length_app. simpl. lia.
    + simpl. split; [done|]. split; [done|]. split; [by right|done].
Qed.

Lemma sample_transactions_kinds (r : Q * string * string * string) :
  r ∈ sample_transactions -> r.2 ∈ kinds.
Proof.
  revert r. apply Forall_forall. apply (bool_decide_unpack _). by vm_compute.
Qed.

(** X20. [generate_sample_data] never fails on a constraint: whatever the
    clock and the random draws, it either returns or raises OverflowError
    (a draw that leads before 0001-01-01); the categories are untouched,
    the rows stored before are kept, also the ones inserted before a
    failure, and a run that returns has added exactly 11 rows. *)
Theorem generate_sample_data_outcome (d : db) (now : Date.t)
    (rand : nat -> Z) :
  let out := generate_sample_data d now rand in
  categories out.1 = categories d /\
  transactions d `prefix_of` transactions out.1 /\
  (out.2 = None \/ out.2 = Some OverflowError) /\
  (out.2 = None ->
   length (transactions out.1) = (length (transactions d) + 11)%nat).
Proof.
  apply (generate_loop_any d now rand 0 sample_transactions).
  apply sample_transactions_kinds.
Qed.

Lemma sample_range (now : Date.t) (rand : nat -> Z) :
  Date.valid now -> 30 < Date.toordinal now ->
  (forall k, 0 <= rand k <= 30) ->
  forall k, 1 <= Date.toordinal now - rand k <= Date.MAXORDINAL.
Proof.
  intros Hv Ho Hrand k. pose proof (toordinal_range now Hv).
  pose proof (Hrand k). lia.
Qed.

Lemma elem_of_sample_rows (dates : nat -> Date.t) (i : nat)
    (l : list (Q * string * string * string)) (t : Transaction) :
  t ∈ sample_rows dates i l ->
  exists r j, r ∈ l /\ t = sample_row r (dates j).
Proof.
  revert i. induction l as [|r l IH]; intros i Ht.
  - by apply elem_of_nil in Ht.
  - simpl in Ht. apply elem_of_cons in Ht as [->|Ht].
    + exists r, i. split; [left|done].
    + apply IH in Ht as (r' & j & Hr' & ->). exists r', j. split; [by right|done].
Qed.

Lemma sample_row_category (r : Q * string * string * string) (date : Date.t) :
  r ∈ sample_transactions ->
  t_category (sample_row r date) ∈ c_name <$> default_categories.
Proof.
  revert r. apply Forall_forall. apply (bool_decide_unpack _). by vm_compute.
Qed.

Lemma sample_rows_fields (dates : nat -> Date.t) (i : nat)
    (l : list (Q * string * string * string)) :
  (fun t => (t_amount t, t_category t, t_description t, t_type t))
  <$> sample_rows dates i l
  = (fun r : Q * string * string * string =>
       (r.1.1.1, r.1.1.2, Some r.1.2, Some r.2)) <$> l.
Proof.
  revert i. induction l as [|[[[a c] ds] ty] l IH]; intros i; [done|].
  cbn [sample_rows]. rewrite !fmap_cons, IH. done.
Qed.

Lemma sample_date_bounds (now : Date.t) (rand : nat -> Z) (j : nat) :
  Date.valid now -> 30 < Date.toordinal now -> 0 <= rand j <= 30 ->
  Date.valid (sample_date now rand j) /\
  Date.le (Date.fromordinal (Date.toordinal now - 30)) (sample_date now rand j) /\
  Date.le (sample_date now rand j) now.
Proof.
  intros Hv Ho Hr. pose proof (toordinal_range now Hv) as Hrange.
  assert (Hle : Date.le (sample_date now rand j)
                  (Date.fromordinal (Date.toordinal now)))
    by (apply fromordinal_mono; lia).
  rewrite (fromordinal_toordinal now (valid_wf now Hv)) in Hle.
  split; [apply fromordinal_valid; lia|].
  split; [apply fromordinal_mono; lia|exact Hle].
Qed.

(** X21. With a valid today on or after 0001-01-31 and draws between 0 and
    30, [generate_sample_data] returns; it appends the 11 rows of its
    list, in order, each dated on a valid date between today - 30 and
    today, under a default category, and leaves the categories alone. *)
Theorem generate_sample_data_rows (d : db) (now : Date.t) (rand : nat -> Z)
    (Hvalid : Date.valid now) (Hday : 30 < Date.toordinal now)
    (Hrand : forall k, 0 <= rand k <= 30) :
  exists rows,
    generate_sample_data d now rand =
      ({| transactions := transactions d ++ rows;
          categories := categories d |}, None) /\
    (fun t => (t_amount t, t_category t, t_description t, t_type t)) <$> rows
    = (fun r : Q * string * string * string =>
         (r.1.1.1, r.1.1.2, Some r.1.2, Some r.2)) <$> sample_transactions /\
    forall t, t ∈ rows ->
      Date.valid (t_date t) /\
      Date.le (Date.fromordinal (Date.toordinal now - 30)) (t_date t) /\
      Date.le (t_date t) now /\
      t_category t ∈ c_name <$> default_categories.
Proof.
  pose proof (sample_range now rand Hvalid Hday Hrand) as Hrange.
  exists (sample_rows (sample_date now rand) 0 sample_transactions).
  split; [apply generate_loop_ok; [done|apply sample_transactions_kinds]|].
  split; [apply sample_rows_fields|].
  intros t (r & j & Hr & ->)%elem_of_sample_rows.
  pose proof (sample_row_category r (sample_date now rand j) Hr) as Hcat.
  destruct (sample_date_bounds now rand j Hvalid Hday (Hrand j))
    as (Hv & Hlo & Hhi).
  destruct r as [[[a c] ds] ty]. cbn [sample_row t_date] in *. done.
Qed.

Lemma sample_rows_window (dates : nat -> Date.t) (start : Date.t) :
  (forall j, Date.le start (dates j)) ->
  filter (expense_since start) (sample_rows dates 0 sample_transactions)
  = sample_rows dates 2 (drop 2 sample_transactions).
Proof.
  intros Hle. unfold sample_transactions.
  cbn [sample_rows sample_row drop].
  rewrite !filter_cons_False by (by intros [? _]).
  apply filter_all. intros t Ht. split; [|].
  - revert t Ht. apply Forall_forall. repeat constructor.
  - apply list_elem_of_In in Ht. cbn [In] in Ht.
    repeat (destruct Ht as [<-|Ht]; [apply Hle|]). done.
Qed.

Lemma sample_spending (cs : list Category) (dates : nat -> Date.t)
    (start : Date.t) :
  (forall j, Date.le start (dates j)) ->
  query_category_spending
    {| transactions := sample_rows dates 0 sample_transactions;
       categories := cs |} start
  = [("Rent", 1200, 1%nat); ("Utilities", 150, 1%nat); ("Food", 125, 2%nat);
     ("Shopping", 120, 1%nat); ("Transport", 95, 2%nat);
     ("Healthcare", 90, 1%nat); ("Entertainment", 75, 1%nat)]%string%Q.
Proof.
  intros Hle. unfold query_category_spending. cbn [transactions].
  rewrite sample_rows_window by done. by vm_compute.
Qed.

(** X22. On a database without transactions, after [generate_sample_data]
    the report [get_category_spending(30)] of the same day is the same
    list of seven rows whatever the random dates: every sample expense
    falls into the 30-day window. *)
Theorem sample_data_category_spending (d : db) (now : Date.t)
    (rand : nat -> Z)
    (Hempty : transactions d = [])
    (Hvalid : Date.valid now) (Hday : 30 < Date.toordinal now)
    (Hrand : forall k, 0 <= rand k <= 30) :
  exists d',
    generate_sample_data d now rand = (d', None) /\
    get_category_spending d' now 30 =
    Ok [("Rent", 1200, 1%nat); ("Utilities", 150, 1%nat); ("Food", 125, 2%nat);
        ("Shopping", 120, 1%nat); ("Transport", 95, 2%nat);
        ("Healthcare", 90, 1%nat); ("Entertainment", 75, 1%nat)]%string%Q.
Proof.
  pose proof (sample_range now rand Hvalid Hday Hrand) as Hrange.
  eexists. split.
  - apply generate_loop_ok; [done|apply sample_transactions_kinds].
  - rewrite Hempty, app_nil_l. apply get_category_spending_Ok.
    exists (Date.fromordinal (Date.toordinal now - 30)). split.
    + unfold Date.sub_days. rewrite decide_True; [done|].
      pose proof (toordinal_range now Hvalid). lia.
    + symmetry. apply sample_spending. intros j.
      by apply (sample_date_bounds now rand j Hvalid Hday (Hrand j)).
Qed.

Lemma sample_rows_amounts (dates : nat -> Date.t) (t : Transaction) :
  t ∈ sample_rows dates 0 sample_transactions -> (0 <= t_amount t)%Q.
Proof.
  revert t. apply Forall_forall. unfold sample_transactions.
  cbn [sample_rows sample_row]. repeat constructor; by vm_compute.
Qed.

Lemma sample_budget_total (dates : nat -> Date.t) (c : Category) :
  c ∈ default_categories ->
  (sum_amounts
     (filter (fun t => c_name c = t_category t)
        (sample_rows dates 0 sample_transactions))
   <= c_budget_limit c \/ ~ budgeted c)%Q.
Proof.
  unfold default_categories. rewrite !elem_of_cons.
  intros [->|[->|[->|[->|[->|[->|[->|[->|[->|Hc]]]]]]]]];
    [right; by intros [? _]|right; by intros [? _]|left; by vm_compute..|].
  by apply elem_of_nil in Hc.
Qed.

(** X23. On a freshly initialised database, after [generate_sample_data]
    no entry of [check_budgets] is "OVER BUDGET", whatever the random
    dates: in every category spent stays at or below the budget. *)
Theorem sample_data_within_budget (now : Date.t) (rand : nat -> Z)
    (Hvalid : Date.valid now) (Hday : 30 < Date.toordinal now)
    (Hrand : forall k, 0 <= rand k <= 30) :
  exists d' entries,
    generate_sample_data (setup_database empty_db) now rand = (d', None) /\
    check_budgets d' now = Ok entries /\
    forall e, e ∈ entries ->
      (spent e <= budget e)%Q /\ status e ≠ "OVER BUDGET"%string.
Proof.
  pose proof (sample_range now rand Hvalid Hday Hrand) as Hrange.
  eexists _, _. split.
  { apply generate_loop_ok; [done|apply sample_transactions_kinds]. }
  split; [apply check_budgets_eq|].
  rewrite setup_database_empty. cbn [transactions categories]. rewrite app_nil_l.
  set (dates := sample_date now rand).
  set (d' := {| transactions := sample_rows dates 0 sample_transactions;
                categories := default_categories |}).
  set (ms := Date.replace_day1 now).
  intros e (r & -> & Hr)%list_elem_of_fmap.
  pose proof (query_budget_usage_pos _ _ _ Hr) as Hpos.
  assert (Hle : (r.2 <= r.1.2)%Q).
  { destruct r as [[name b] s].
    apply elem_of_query_budget_usage in Hr as (c & Hc & Hb & -> & -> & ->);
      [|apply NoDup_default_names].
    cbn [fst snd]. rewrite Qred_correct.
    destruct (sample_budget_total dates c Hc) as [Hsum|Hn]; [|done].
    eapply Qle_trans; [|exact Hsum].
    unfold spec_budget_rows, d'. cbn [transactions].
    apply sum_filter_mono.
    - intros t Ht. by eapply sample_rows_amounts.
    - by intros t _ [Hname _]. }
  destruct (budget_entry_of_fields r Hpos) as (_ & Hb & Hs & _).
  destruct (budget_entry_of_status r Hpos) as (Hover & _).
  rewrite Hb, Hs in *. split; [done|].
  intros Ho. apply Hover in Ho. by apply (Qlt_not_le _ _ Ho).
Qed.

(** ** Worked instances of the further properties *)

Lemma ex_db_reachable : reachable ex_db.
Proof.
  apply (reach_add
           {| transactions := [ex_food; ex_salary];
              categories := default_categories |}
           ex_today 50 "Pets" (Some "Vet"%string)
           (Some "expense"%string) (Some (Date.mk 2026 9 24)));
    [|reflexivity].
  apply (reach_add
           {| transactions := [ex_food]; categories := default_categories |}
           ex_today 1000 "Salary" (Some "Monthly salary"%string)
           (Some "income"%string) None); [|reflexivity].
  apply (reach_add (setup_database empty_db)
           ex_today 600 "Food" (Some "Groceries"%string)
           (Some "expense"%string) None); [|reflexivity].
  apply reach_init.
Qed.



Lemma ex_rand_range (k : nat) : 0 <= ex_rand k <= 30.
Proof. unfold ex_rand. lia. Qed.

Lemma setup_database_names_witness :
  NoDup (c_name <$> categories ex_db_custom) /\
  NoDup (c_name <$> categories (setup_database ex_db_custom)) /\
  forall c, c ∈ default_categories ->
    c_name c ∈ c_name <$> categories (setup_database ex_db_custom).
Proof.
  assert (Hnd : NoDup (c_name <$> categories ex_db_custom))
    by (apply (bool_decide_unpack _); vm_compute; reflexivity).
  split; [exact Hnd|]. exact (setup_database_names ex_db_custom Hnd).
Defined.

Lemma reachable_invariant_witness :
  reachable ex_db /\
  categories ex_db = default_categories /\
  forall t, t ∈ transactions ex_db ->
    t_type t = None \/ t_type t = Some "income"%string \/
    t_type t = Some "expense"%string.
Proof.
  split; [exact ex_db_reachable|].
  exact (reachable_invariant ex_db ex_db_reachable).
Defined.


Lemma monthly_summary_frame_witness :
  Date.year_month (t_date ex_pets) ≠ Date.year_month ex_today /\
  get_monthly_summary
    {| transactions := [ex_food; ex_salary] ++ ex_pets :: [];
       categories := default_categories |} ex_today
  = get_monthly_summary
      {| transactions := [ex_food; ex_salary] ++ []; categories := [] |}
      ex_today.
Proof.
  assert (Hout : Date.year_month (t_date ex_pets) ≠ Date.year_month ex_today)
    by (intros H; discriminate H).
  split; [exact Hout|].
  exact (monthly_summary_frame default_categories [] [ex_food; ex_salary] []
           ex_pets ex_today Hout).
Defined.



Lemma category_spending_rows_witness :
  Date.sub_days ex_today 30 = Ok (Date.mk 2026 10 4) /\
  exists rows,
    get_category_spending ex_db ex_today 30 = Ok rows /\
    NoDup rows.*1.*1 /\
    (forall cat, cat ∈ rows.*1.*1 <->
       exists t, t ∈ transactions ex_db /\ t_category t = cat /\
         t_type t = Some "expense"%string /\
         Date.le (Date.mk 2026 10 4) (t_date t)) /\
    (forall cat total n, (cat, total, n) ∈ rows -> (1 <= n)%nat) /\
    (rows = [] <->
     forall t, t ∈ transactions ex_db ->
       ~ (t_type t = Some "expense"%string /\
          Date.le (Date.mk 2026 10 4) (t_date t))).
Proof.
  split; [reflexivity|].
  exact (category_spending_rows ex_db ex_today 30 (Date.mk 2026 10 4) eq_refl).
Defined.


Lemma category_spending_window_grows_witness :
  30 <= 40 /\
  Date.sub_days ex_today 30 = Ok (Date.mk 2026 10 4) /\
  Date.sub_days ex_today 40 = Ok (Date.mk 2026 9 24) /\
  exists rows1 rows2,
    get_category_spending ex_db ex_today 30 = Ok rows1 /\
    get_category_spending ex_db ex_today 40 = Ok rows2 /\
    forall cat total1 n1, (cat, total1, n1) ∈ rows1 ->
      exists total2 n2,
        (cat, total2, n2) ∈ rows2 /\ (n1 <= n2)%nat /\
        ((forall t, t ∈ transactions ex_db -> (0 <= t_amount t)%Q) ->
         (total1 <= total2)%Q).
Proof.
  assert (H : 30 <= 40) by lia.
  split; [exact H|]. split; [reflexivity|]. split; [reflexivity|].
  exact (category_spending_window_grows ex_db ex_today 30 40
           (Date.mk 2026 10 4) (Date.mk 2026 9 24) H eq_refl eq_refl).
Defined.

Lemma category_spending_window_start_witness :
  Date.valid ex_today /\
  0 <= 30 < Date.toordinal ex_today /\
  exists start rows,
    Date.sub_days ex_today 30 = Ok start /\
    get_category_spending ex_db ex_today 30 = Ok rows /\
    Date.valid start /\
    Date.toordinal start = Date.toordinal ex_today - 30 /\
    Date.le start ex_today /\
    (30 = 0 -> start = ex_today) /\
    forall t, t ∈ transactions ex_db -> t_type t = Some "expense"%string ->
      Date.le ex_today (t_date t) ->
      t ∈ spec_spending_rows ex_db start (t_category t) /\
      exists total n, (t_category t, total, n) ∈ rows.
Proof.
  assert (Hv : Date.valid ex_today)
    by (apply (bool_decide_unpack _); vm_compute; reflexivity).
  assert (Hd : 0 <= 30 < Date.toordinal ex_today)
    by (apply (bool_decide_unpack _); vm_compute; reflexivity).
  split; [exact Hv|]. split; [exact Hd|].
  exact (category_spending_window_start ex_db ex_today 30 Hv Hd).
Defined.

Lemma category_spending_frame_witness :
  (forall start, Date.sub_days ex_today 30 = Ok start ->
     t_type ex_salary ≠ Some "expense"%string \/
     Date.lt (t_date ex_salary) start) /\
  get_category_spending
    {| transactions := [ex_food] ++ ex_salary :: [ex_pets];
       categories := default_categories |} ex_today 30
  = get_category_spending
      {| transactions := [ex_food] ++ [ex_pets]; categories := [] |}
      ex_today 30.
Proof.
  assert (Hout : forall start, Date.sub_days ex_today 30 = Ok start ->
            t_type ex_salary ≠ Some "expense"%string \/
            Date.lt (t_date ex_salary) start)
    by (intros start _; left; intros H; discriminate H).
  split; [exact Hout|].
  exact (category_spending_frame default_categories [] [ex_food] [ex_pets]
           ex_salary ex_today 30 Hout).
Defined.

Lemma budget_status_seven_witness :
  reachable ex_db /\
  exists entries,
    check_budgets ex_db ex_today = Ok entries /\
    length entries = 7%nat /\
    (fun e => (category e, budget e)) <$> entries ≡ₚ
    [("Food", 500); ("Transport", 200); ("Entertainment", 150);
     ("Utilities", 300); ("Shopping", 400); ("Healthcare", 200);
     ("Rent", 1200)]%string%Q.
Proof.
  split; [exact ex_db_reachable|].
  exact (budget_status_seven ex_db ex_today ex_db_reachable).
Defined.


Lemma budget_status_frame_witness :
  (t_type ex_salary ≠ Some "expense"%string \/
   Date.lt (t_date ex_salary) (Date.replace_day1 ex_today)) /\
  check_budgets
    {| transactions := [ex_food] ++ ex_salary :: [ex_pets];
       categories := default_categories |} ex_today
  = check_budgets
      {| transactions := [ex_food] ++ [ex_pets];
         categories := default_categories |} ex_today.
Proof.
  assert (Hout : t_type ex_salary ≠ Some "expense"%string \/
                 Date.lt (t_date ex_salary) (Date.replace_day1 ex_today))
    by (left; intros H; discriminate H).
  split; [exact Hout|].
  exact (budget_status_frame default_categories [ex_food] [ex_pets] ex_salary
           ex_today Hout).
Defined.

Lemma generate_sample_data_rows_witness :
  Date.valid ex_today /\ 30 < Date.toordinal ex_today /\
  (forall k, 0 <= ex_rand k <= 30) /\
  exists rows,
    generate_sample_data (setup_database empty_db) ex_today ex_rand =
      ({| transactions := transactions (setup_database empty_db) ++ rows;
          categories := categories (setup_database empty_db) |}, None) /\
    (fun t => (t_amount t, t_category t, t_description t, t_type t)) <$> rows
    = (fun r : Q * string * string * string =>
         (r.1.1.1, r.1.1.2, Some r.1.2, Some r.2)) <$> sample_transactions /\
    forall t, t ∈ rows ->
      Date.valid (t_date t) /\
      Date.le (Date.fromordinal (Date.toordinal ex_today - 30)) (t_date t) /\
      Date.le (t_date t) ex_today /\
      t_category t ∈ c_name <$> default_categories.
Proof.
  assert (Hv : Date.valid ex_today)
    by (apply (bool_decide_unpack _); vm_compute; reflexivity).
  assert (Hd : 30 < Date.toordinal ex_today)
    by (apply (bool_decide_unpack _); vm_compute; reflexivity).
  assert (Hr : forall k, 0 <= ex_rand k <= 30)
    by (intros k; unfold ex_rand; lia).
  split; [exact Hv|]. split; [exact Hd|]. split; [exact Hr|].
  exact (generate_sample_data_rows (setup_database empty_db) ex_today ex_rand
           Hv Hd Hr).
Defined.

Lemma sample_data_category_spending_witness :
  transactions (setup_database empty_db) = [] /\
  Date.valid ex_today /\ 30 < Date.toordinal ex_today /\
  (forall k, 0 <= ex_rand k <= 30) /\
  exists d',
    generate_sample_data (setup_database empty_db) ex_today ex_rand
      = (d', None) /\
    get_category_spending d' ex_today 30 =
    Ok [("Rent", 1200, 1%nat); ("Utilities", 150, 1%nat); ("Food", 125, 2%nat);
        ("Shopping", 120, 1%nat); ("Transport", 95, 2%nat);
        ("Healthcare", 90, 1%nat); ("Entertainment", 75, 1%nat)]%string%Q.
Proof.
  assert (Hv : Date.valid ex_today)
    by (apply (bool_decide_unpack _); vm_compute; reflexivity).
  assert (Hd : 30 < Date.toordinal ex_today)
    by (apply (bool_decide_unpack _); vm_compute; reflexivity).
  assert (Hr : forall k, 0 <= ex_rand k <= 30)
    by (intros k; unfold ex_rand; lia).
  split; [reflexivity|].
  split; [exact Hv|]. split; [exact Hd|]. split; [exact Hr|].
  exact (sample_data_category_spending (setup_database empty_db) ex_today
           ex_rand eq_refl Hv Hd Hr).
Defined.

Lemma sample_data_within_budget_witness :
  Date.valid ex_today /\ 30 < Date.toordinal ex_today /\
  (forall k, 0 <= ex_rand k <= 30) /\
  exists d' entries,
    generate_sample_data (setup_database empty_db) ex_today ex_rand
      = (d', None) /\
    check_budgets d' ex_today = Ok entries /\
    forall e, e ∈ entries ->
      (spent e <= budget e)%Q /\ status e ≠ "OVER BUDGET"%string.
Proof.
  assert (Hv : Date.valid ex_today)
    by (apply (bool_decide_unpack _); vm_compute; reflexivity).
  assert (Hd : 30 < Date.toordinal ex_today)
    by (apply (bool_decide_unpack _); vm_compute; reflexivity).
  assert (Hr : forall k, 0 <= ex_rand k <= 30)
    by (intros k; unfold ex_rand; lia).
  split; [exact Hv|]. split; [exact Hd|]. split; [exact Hr|].
  exact (sample_data_within_budget ex_today ex_rand Hv Hd Hr).
Defined.
